(** * LawSathi backend: the request handlers of [backend/server.py]

    A shallow embedding of the handlers [chat_endpoint], [upload_document]
    and [get_chat_history] together with the helpers [get_ai_response],
    [extract_text_from_pdf] and [extract_text_from_image].

    The three external collaborators (MongoDB through motor, the LLM client,
    PyPDF2 / pytesseract) are not part of the repository.  They appear here
    as a record of oracles, [Env], indexed by the number of interactions
    the process has had with the outside so far; the handlers are written
    in a state-and-exception monad over the contents of the two
    collections. *)

From Stdlib Require Import ZArith NArith String Ascii List Lia DecimalString.
From Stdlib Require Import Sorting.Sorted.
From stdpp Require Import base option list strings gmap.

Local Open Scope Z_scope.
Local Open Scope list_scope.

(** ** Python strings

    A Python [str] is a sequence of Unicode code points: [len] counts code
    points and [s[:n]] keeps the first [n] of them. *)

Module Py.

Abbreviation str := (list N).

(** An ASCII literal of the source as a [str]. *)
Definition lit (s : string) : str :=
  map N_of_ascii (list_ascii_of_string s).
Arguments lit : simpl never.

(** [str.isspace] on one code point (the table of CPython's
    [_PyUnicode_IsWhitespace]). *)
Definition isspace (c : N) : bool :=
  ((9 <=? c) && (c <=? 13) || (28 <=? c) && (c <=? 32)
   || (c =? 133) || (c =? 160) || (c =? 5760)
   || (8192 <=? c) && (c <=? 8202)
   || (c =? 8232) || (c =? 8233) || (c =? 8239) || (c =? 8287)
   || (c =? 12288))%N.

Fixpoint lstrip (s : str) : str :=
  match s with
  | c :: s' => if isspace c then lstrip s' else s
  | [] => []
  end.

Definition rstrip (s : str) : str := rev (lstrip (rev s)).

(** [s.strip()] *)
Definition strip (s : str) : str := rstrip (lstrip s).

(** The line feed, ["\n"]. *)
Definition nl : str := [10%N].

(** [str(n)] for an integer. *)
Definition str_of_Z (n : Z) : str := lit (NilZero.string_of_int (Z.to_int n)).

(** Lexicographic comparison of two strings by code point. *)
Fixpoint str_leb (a b : str) : bool :=
  match a, b with
  | [], _ => true
  | _ :: _, [] => false
  | x :: a', y :: b' =>
      if (x <? y)%N then true
      else if (y <? x)%N then false
      else str_leb a' b'
  end.

End Py.

Import Py.

(** ** Values and documents of the store

    MongoDB is schema-less: a stored document maps field names to values.
    The scalar values that occur in the two collections are strings, dates
    and the driver's object identifiers (kept by their 24-digit hexadecimal
    form, which is what [str] gives for them). *)

Definition datetime := Z.

Inductive value :=
| VStr (s : str)
| VObjectId (hex : str)
| VDatetime (t : datetime).

#[global] Instance value_eq_dec : EqDecision value.
Proof. solve_decision. Defined.

Abbreviation document := (gmap string value).

(** [d.get(k, dflt)] *)
Definition get (k : string) (dflt : value) (d : document) : value :=
  default dflt (d !! k).

(** ** Exceptions

    [HTTPException] is what the handlers raise on purpose; [Error] stands
    for every other subclass of [Exception], the ones the libraries raise,
    and carries the text [str(e)]. *)

Inductive exn :=
| HTTPException (status_code : Z) (detail : str)
| Error (msg : str).

(** [str(e)]; for an [HTTPException] the status and the detail, as
    Starlette prints it. *)
Definition exn_str (e : exn) : str :=
  match e with
  | HTTPException c d => str_of_Z c ++ lit ": " ++ d
  | Error m => m
  end.

(** ** The models of the source ([pydantic] classes) *)

Module ChatMessage.
Record t := mk {
  id : str;
  session_id : str;
  message : str;
  response : str;
  timestamp : datetime;
  message_type : str
}.

(** [.dict()] *)
Definition dict (r : t) : document :=
  <["id" := VStr (id r)]>
  (<["session_id" := VStr (session_id r)]>
  (<["message" := VStr (message r)]>
  (<["response" := VStr (response r)]>
  (<["timestamp" := VDatetime (timestamp r)]>
  (<["message_type" := VStr (message_type r)]> ∅))))).
End ChatMessage.

Module ChatRequest.
Record t := mk {
  message : str;
  session_id : option str;
  language : str
}.
End ChatRequest.

Module ChatResponse.
Record t := mk {
  response : str;
  session_id : str;
  timestamp : datetime;
  sources : list str
}.
End ChatResponse.

Module DocumentUpload.
Record t := mk {
  id : str;
  session_id : str;
  filename : str;
  extracted_text : str;
  simplified_explanation : str;
  timestamp : datetime
}.

Definition dict (r : t) : document :=
  <["id" := VStr (id r)]>
  (<["session_id" := VStr (session_id r)]>
  (<["filename" := VStr (filename r)]>
  (<["extracted_text" := VStr (extracted_text r)]>
  (<["simplified_explanation" := VStr (simplified_explanation r)]>
  (<["timestamp" := VDatetime (timestamp r)]> ∅))))).
End DocumentUpload.

(** The multipart file of a request: the name and the content type the
    client declared (the header may be absent), and the bytes. *)
Module UploadFile.
Record t := mk {
  filename : str;
  content_type : option str;
  content : list Byte.byte
}.
End UploadFile.

(** The JSON object [upload_document] returns. *)
Module UploadResult.
Record t := mk {
  message : str;
  extracted_text : str;
  explanation : str;
  session_id : str
}.
End UploadResult.

(** The JSON object [get_chat_history] returns. *)
Module HistoryResult.
Record t := mk {
  messages : list document
}.
End HistoryResult.

(** ** The store and the world *)

Record Store := mkStore {
  chat_messages : list document;   (* db.chat_messages, in insertion order *)
  documents : list document        (* db.documents *)
}.

Record World := mkWorld {
  store : Store;
  tick : nat        (* interactions with the outside so far *)
}.

Inductive collection := Coll_chat_messages | Coll_documents.

(** ** The collaborators

    Every field is asked with the current [tick], so that two calls of one
    request may be answered differently.  A failing library call is a
    [inl m] / [Some m], where [m] is the text of the exception raised. *)

Record Env := mkEnv {
  uuid4 : nat -> str;                        (* str(uuid.uuid4()) *)
  utcnow : nat -> datetime;                  (* datetime.utcnow() *)
  ObjectId : nat -> str;                     (* the _id the driver assigns *)
  (* LlmChat(api_key, session_id, LEGAL_SYSTEM_MESSAGE)
       .with_model("openai", "gpt-4o").send_message(UserMessage(text)) *)
  send_message : nat -> str -> str -> str + str;
  insert_fault : nat -> collection -> option str;
  find_fault : nat -> option str;
  read_fault : nat -> option str;            (* file.read() *)
  (* PyPDF2.PdfReader(...).pages, each page with what extract_text() does *)
  PdfReader : nat -> list Byte.byte -> str + list (str + str);
  (* tempfile, Image.open and pytesseract.image_to_string(lang='eng+hin') *)
  image_to_string : nat -> list Byte.byte -> str + str;
  lower : str -> str;                        (* str.lower *)
  str_of_datetime : datetime -> str          (* str(datetime) *)
}.

(** ** The monad of handlers: state, and exceptions that keep the state *)

Inductive outcome (A : Type) :=
| Return (a : A)
| Raise (e : exn).
Arguments Return {A} a.
Arguments Raise {A} e.

Definition M (A : Type) : Type := World -> outcome A * World.

Definition ret {A} (a : A) : M A := fun w => (Return a, w).

Definition raise {A} (e : exn) : M A := fun w => (Raise e, w).

Definition bind {A B} (m : M A) (k : A -> M B) : M B :=
  fun w =>
    match m w with
    | (Return a, w') => k a w'
    | (Raise e, w') => (Raise e, w')
    end.

(** [if b: m] as a statement. *)
Definition when (b : bool) (m : M unit) : M unit :=
  if b then m else ret tt.

(** [try: body except ...: handler]; what the body wrote stays written. *)
Definition try_except {A} (body : M A) (handler : exn -> M A) : M A :=
  fun w =>
    match body w with
    | (Return a, w') => (Return a, w')
    | (Raise e, w') => handler e w'
    end.

Notation "x <- m ;; k" := (bind m (fun x => k))
  (at level 100, m at next level, right associativity).

(** One interaction with the outside: its index, and the clock advances. *)
Definition interact : M nat :=
  fun w => (Return (tick w), mkWorld (store w) (S (tick w))).

Definition store_insert (c : collection) (d : document) (s : Store) : Store :=
  match c with
  | Coll_chat_messages => mkStore (chat_messages s ++ [d]) (documents s)
  | Coll_documents => mkStore (chat_messages s) (documents s ++ [d])
  end.

(** ** The order of the store on a sort key

    MongoDB compares values of different types by type (a missing field
    counts as null and comes first, then strings, object identifiers,
    dates) and values of one type by content. *)

Definition bson_rank (v : option value) : nat :=
  match v with
  | None => 1
  | Some (VStr _) => 3
  | Some (VObjectId _) => 7
  | Some (VDatetime _) => 9
  end.

Definition bson_leb (a b : option value) : bool :=
  match a, b with
  | Some (VStr x), Some (VStr y) => str_leb x y
  | Some (VObjectId x), Some (VObjectId y) => str_leb x y
  | Some (VDatetime x), Some (VDatetime y) => (x <=? y)%Z
  | _, _ => (bson_rank a <=? bson_rank b)%nat
  end.

Definition key_leb (k : string) (a b : document) : bool :=
  bson_leb (a !! k) (b !! k).

(** [.sort(k, 1)]: ascending, documents with equal keys in stored order. *)
Fixpoint sort_insert (k : string) (d : document) (l : list document)
  : list document :=
  match l with
  | [] => [d]
  | x :: l' => if key_leb k d x
               then d :: x :: l'
               else x :: sort_insert k d l'
  end.

Fixpoint sort_asc (k : string) (l : list document) : list document :=
  match l with
  | [] => []
  | d :: l' => sort_insert k d (sort_asc k l')
  end.

(** The filter [{"session_id": sid}]. *)
Definition matches_session (sid : str) (d : document) : bool :=
  bool_decide (d !! "session_id" = Some (VStr sid)).

Section Handlers.

Variable E : Env.

(** *** Primitive calls *)

Definition new_uuid : M str := n <- interact ;; ret (uuid4 E n).

Definition now : M datetime := n <- interact ;; ret (utcnow E n).

(** [await db.<c>.insert_one(d)] *)
Definition insert_one (c : collection) (d : document) : M unit :=
  n <- interact ;;
  match insert_fault E n c with
  | Some m => raise (Error m)
  | None =>
      fun w => (Return tt,
                mkWorld (store_insert c (<["_id" := VObjectId (ObjectId E n)]> d)
                                      (store w))
                        (tick w))
  end.

(** [await db.chat_messages.find({"session_id": sid})
      .sort("timestamp", 1).to_list(n)] *)
Definition find_sort_to_list (sid : str) (n : nat) : M (list document) :=
  i <- interact ;;
  match find_fault E i with
  | Some m => raise (Error m)
  | None =>
      fun w => (Return (take n (sort_asc "timestamp"
                          (filter (fun d => matches_session sid d = true)
                                  (chat_messages (store w))))), w)
  end.

Definition file_read (f : UploadFile.t) : M (list Byte.byte) :=
  n <- interact ;;
  match read_fault E n with
  | Some m => raise (Error m)
  | None => ret (UploadFile.content f)
  end.

(** [ChatMessage(session_id=..., message=..., response=..., message_type=...)]:
    the two default factories run, [id] first. *)
Definition new_ChatMessage (session_id message response message_type : str)
  : M ChatMessage.t :=
  i <- new_uuid ;;
  t <- now ;;
  ret (ChatMessage.mk i session_id message response t message_type).

Definition new_DocumentUpload
           (session_id filename extracted_text simplified_explanation : str)
  : M DocumentUpload.t :=
  i <- new_uuid ;;
  t <- now ;;
  ret (DocumentUpload.mk i session_id filename extracted_text
                         simplified_explanation t).

(** *** Helper functions of the source *)

Definition APOLOGY : str :=
  lit "I apologize, but I'm having trouble processing your request right now. Please try again later.".

(** The reassignment of [message] in [get_ai_response]: the text that is
    forwarded to the model. *)
Definition with_language_prefix (language message : str) : str :=
  if decide (lower E language = lit "hindi")
  then lit "Please respond in simple Hindi (Devanagari script): " ++ message
  else lit "Please respond in simple English: " ++ message.

Definition get_ai_response (message session_id language : str) : M str :=
  try_except
    (let message := with_language_prefix language message in
     n <- interact ;;
     match send_message E n session_id message with
     | inl m => raise (Error m)
     | inr response => ret response
     end)
    (fun e => ret APOLOGY).

(** The loop [for page in pdf_reader.pages: text += page.extract_text() + "\n"]. *)
Fixpoint pages_text (pages : list (str + str)) (text : str) : M str :=
  match pages with
  | [] => ret text
  | inl m :: _ => raise (Error m)
  | inr t :: rest => pages_text rest (text ++ (t ++ nl))
  end.

Definition extract_text_from_pdf (file_content : list Byte.byte) : M str :=
  try_except
    (n <- interact ;;
     match PdfReader E n file_content with
     | inl m => raise (Error m)
     | inr pages =>
         text <- pages_text pages [] ;;
         ret (strip text)
     end)
    (fun e => raise (HTTPException 400 (lit "Failed to extract text from PDF"))).

Definition extract_text_from_image (file_content : list Byte.byte) : M str :=
  try_except
    (n <- interact ;;
     match image_to_string E n file_content with
     | inl m => raise (Error m)
     | inr text => ret (strip text)
     end)
    (fun e => raise (HTTPException 400 (lit "Failed to extract text from image"))).

(** *** The routes *)

Definition chat_endpoint (request : ChatRequest.t) : M ChatResponse.t :=
  try_except
    ((* request.session_id or str(uuid.uuid4()): None and "" are both falsy *)
     session_id <- match ChatRequest.session_id request with
                   | Some (c :: s) => ret (c :: s)
                   | Some [] | None => new_uuid
                   end ;;
     ai_response <- get_ai_response (ChatRequest.message request) session_id
                                    (ChatRequest.language request) ;;
     chat_record <- new_ChatMessage session_id (ChatRequest.message request)
                                    ai_response (lit "text") ;;
     _ <- insert_one Coll_chat_messages (ChatMessage.dict chat_record) ;;
     t <- now ;;
     ret (ChatResponse.mk ai_response session_id t
            [lit "Indian Legal Database"; lit "Government Schemes Portal"]))
    (fun e => raise (HTTPException 500 (lit "Failed to process chat request"))).

Definition allowed_types : list str :=
  [lit "application/pdf"; lit "image/jpeg"; lit "image/png"; lit "image/jpg"].

(** [x in l] for a header that may be [None]. *)
Definition py_in (x : option str) (l : list str) : bool :=
  match x with
  | Some s => bool_decide (s ∈ l)
  | None => false
  end.

Definition explanation_prompt (language extracted_text : str) : str :=
  lit "Analyze this legal document and provide a simplified explanation in "
  ++ (if decide (language = lit "hindi") then lit "Hindi" else lit "English")
  ++ lit ":" ++ nl ++ nl
  ++ lit "Document Text:" ++ nl
  ++ extracted_text ++ nl ++ nl
  ++ lit "Please provide:" ++ nl
  ++ lit "1. What type of legal document this is" ++ nl
  ++ lit "2. Key points and important information" ++ nl
  ++ lit "3. What actions the person should take (if any)" ++ nl
  ++ lit "4. Any deadlines or important dates" ++ nl
  ++ lit "5. Rights and obligations mentioned" ++ nl
  ++ lit "6. Whether legal consultation is recommended" ++ nl ++ nl
  ++ lit "Make the explanation simple and easy to understand for someone with limited legal knowledge.".

(** The branch [if file.content_type == 'application/pdf': ... else: ...]. *)
Definition extract_text (file : UploadFile.t) (file_content : list Byte.byte)
  : M str :=
  if decide (UploadFile.content_type file = Some (lit "application/pdf"))
  then extract_text_from_pdf file_content
  else extract_text_from_image file_content.

Definition upload_document (file : UploadFile.t) (session_id language : str)
  : M UploadResult.t :=
  try_except
    (_ <- when (negb (py_in (UploadFile.content_type file) allowed_types))
            (raise (HTTPException 400
                      (lit "Only PDF and image files are supported"))) ;;
     file_content <- file_read file ;;
     extracted_text <- extract_text file file_content ;;
     _ <- when (bool_decide (extracted_text = []))
            (raise (HTTPException 400
                      (lit "No text could be extracted from the document"))) ;;
     ai_explanation <- get_ai_response
                         (explanation_prompt language extracted_text)
                         session_id language ;;
     doc_record <- new_DocumentUpload session_id (UploadFile.filename file)
                                      extracted_text ai_explanation ;;
     _ <- insert_one Coll_documents (DocumentUpload.dict doc_record) ;;
     chat_record <- new_ChatMessage session_id
                      (lit "Uploaded document: " ++ UploadFile.filename file)
                      ai_explanation (lit "document") ;;
     _ <- insert_one Coll_chat_messages (ChatMessage.dict chat_record) ;;
     ret (UploadResult.mk
            (lit "Document processed successfully")
            (if (500 <? length extracted_text)%nat
             then take 500 extracted_text ++ lit "..."
             else extracted_text)
            ai_explanation
            session_id))
    (fun e =>
       match e with
       | HTTPException _ _ => raise e
       | Error _ => raise (HTTPException 500 (lit "Failed to process document"))
       end).

(** [str(v)] for a stored value. *)
Definition py_str (v : value) : str :=
  match v with
  | VStr s => s
  | VObjectId hex => hex
  | VDatetime t => str_of_datetime E t
  end.

Definition clean_msg (msg : document) : document :=
  <["id" := get "id" (VStr (py_str (get "_id" (VStr []) msg))) msg]>
  (<["session_id" := get "session_id" (VStr []) msg]>
  (<["message" := get "message" (VStr []) msg]>
  (<["response" := get "response" (VStr []) msg]>
  (<["timestamp" := get "timestamp" (VStr []) msg]>
  (<["message_type" := get "message_type" (VStr (lit "text")) msg]> ∅))))).

(** The loop [for msg in messages: clean_messages.append(clean_msg)]. *)
Fixpoint clean_loop (messages clean_messages : list document) : list document :=
  match messages with
  | [] => clean_messages
  | msg :: rest => clean_loop rest (clean_messages ++ [clean_msg msg])
  end.

Definition get_chat_history (session_id : str) : M HistoryResult.t :=
  try_except
    (messages <- find_sort_to_list session_id 100 ;;
     ret (HistoryResult.mk (clean_loop messages [])))
    (fun e => raise (HTTPException 500
                       (lit "Failed to retrieve chat history: " ++ exn_str e))).

End Handlers.

(** ** What a call of [get_ai_response] at interaction [n] returns *)

Definition ai_reply (E : Env) (n : nat) (message session_id language : str)
  : str :=
  match send_message E n session_id (with_language_prefix E language message) with
  | inl _ => APOLOGY
  | inr response => response
  end.

(** The session a [/chat] request runs in, and the interaction count once it
    is known: a fresh identifier costs one interaction. *)
Definition session_of (E : Env) (request : ChatRequest.t) (n : nat)
  : str * nat :=
  match ChatRequest.session_id request with
  | Some (c :: s) => (c :: s, n)
  | Some [] | None => (uuid4 E n, S n)
  end.

(** What the library handed over before [strip]: the concatenated pages of a
    PDF, or the OCR output of an image, at interaction [n]. *)
Definition raw_text (E : Env) (n : nat) (file : UploadFile.t) (raw : str)
  : Prop :=
  if decide (UploadFile.content_type file = Some (lit "application/pdf"))
  then exists pages,
         PdfReader E n (UploadFile.content file) = inr pages /\
         forall w, pages_text pages [] w = (Return raw, w)
  else image_to_string E n (UploadFile.content file) = inr raw.

(** The six fields of an entry of the history. *)
Definition history_fields : gset string :=
  {[ "id"; "session_id"; "message"; "response"; "timestamp"; "message_type" ]}.

(** ** Fake collaborators

    A deterministic environment to run the handlers on concrete requests:
    the LLM echoes, the PDF reader and the OCR return the bytes of the file
    as one page of text, and each kind of failure can be switched on. *)

Module Fake.

Definition ascii_lower (c : N) : N :=
  if ((65 <=? c) && (c <=? 90))%N then (c + 32)%N else c.

Definition text_of_bytes (b : list Byte.byte) : str := map Byte.to_N b.

Definition bytes_of (s : string) : list Byte.byte :=
  map byte_of_ascii (list_ascii_of_string s).

Definition env (llm_up chat_store_up find_up : bool) : Env :=
  {| uuid4 := fun n => lit "uuid-" ++ str_of_Z (Z.of_nat n);
     utcnow := fun n => Z.of_nat n;
     ObjectId := fun n => lit "oid-" ++ str_of_Z (Z.of_nat n);
     send_message := fun _ _ text =>
       if llm_up then inr (lit "Answer to: " ++ text)
       else inl (lit "connection refused");
     insert_fault := fun _ c =>
       match c with
       | Coll_chat_messages =>
           if chat_store_up then None else Some (lit "write failed")
       | Coll_documents => None
       end;
     find_fault := fun _ =>
       if find_up then None else Some (lit "server selection timeout");
     read_fault := fun _ => None;
     PdfReader := fun _ b => inr [inr (text_of_bytes b)];
     image_to_string := fun _ b => inr (text_of_bytes b);
     lower := map ascii_lower;
     str_of_datetime := fun t => str_of_Z t |}.

Definition up : Env := env true true true.

Definition w0 : World := mkWorld (mkStore [] []) 0.

Definition pdf (name body : string) : UploadFile.t :=
  UploadFile.mk (lit name) (Some (lit "application/pdf")) (bytes_of body).

(** A deed of 600 letters, longer than what the answer quotes. *)
Definition long_pdf : UploadFile.t :=
  UploadFile.mk (lit "deed.pdf") (Some (lit "application/pdf"))
                (repeat Byte.x78 600).

(** The value a run returned, [d] if it raised. *)
Definition returned {A} (d : A) (run : outcome A * World) : A :=
  match fst run with
  | Return a => a
  | Raise _ => d
  end.

Definition no_upload : UploadResult.t := UploadResult.mk [] [] [] [].

Definition no_answer : ChatResponse.t := ChatResponse.mk [] [] 0 [].

Definition long_upload : outcome UploadResult.t * World :=
  upload_document up long_pdf (lit "s1") (lit "english") w0.

Definition short_upload : outcome UploadResult.t * World :=
  upload_document up (pdf "notice.pdf" "Pay by Friday") (lit "s1")
                  (lit "hindi") w0.

Definition ask : ChatRequest.t :=
  ChatRequest.mk (lit "What is RTI?") (Some (lit "s1")) (lit "Hindi").

Definition chat_run : outcome ChatResponse.t * World :=
  chat_endpoint up ask w0.

(** A stored turn, and a document written by someone else that has only the
    driver's identifier and a session. *)
Definition turn (i sid msg : string) (t : datetime) : document :=
  <["_id" := VObjectId (lit ("oid-" ++ i))]>
    (ChatMessage.dict
       (ChatMessage.mk (lit i) (lit sid) (lit msg) (lit "ok") t (lit "text"))).

Definition bare : document :=
  <["_id" := VObjectId (lit "65a1")]> (<["session_id" := VStr (lit "s1")]> ∅).

Definition w_hist : World :=
  mkWorld (mkStore [turn "b" "s1" "second" 20; turn "x" "s2" "other" 5;
                    bare; turn "a" "s1" "first" 10] [])
          0.

End Fake.

(** ** Process configuration

    [allow_origins=os.environ.get('CORS_ORIGINS', '*').split(',')] *)

(** [s.split(sep)] for a separator of one code point. *)
Fixpoint str_split (sep : N) (s : str) : list str :=
  match s with
  | [] => [[]]
  | c :: s' =>
      if (c =? sep)%N then [] :: str_split sep s'
      else match str_split sep s' with
           | piece :: pieces => (c :: piece) :: pieces
           | [] => [[c]]
           end
  end.

(** [sep.join(l)] *)
Fixpoint str_join (sep : str) (l : list str) : str :=
  match l with
  | [] => []
  | x :: l' =>
      match l' with
      | [] => x
      | _ :: _ => x ++ sep ++ str_join sep l'
      end
  end.

Definition comma : N := 44%N.

Definition allow_origins (CORS_ORIGINS : option str) : list str :=
  str_split comma (default (lit "*") CORS_ORIGINS).

(** ** Collaborators that fail

    The fakes above with one more failure switched on. *)

Module Faults.

Definition unreadable (E : Env) : Env :=
  mkEnv (uuid4 E) (utcnow E) (ObjectId E) (send_message E) (insert_fault E)
        (find_fault E) (fun _ => Some (lit "stream closed"))
        (PdfReader E) (image_to_string E) (lower E) (str_of_datetime E).

Definition broken_pdf (E : Env) : Env :=
  mkEnv (uuid4 E) (utcnow E) (ObjectId E) (send_message E) (insert_fault E)
        (find_fault E) (read_fault E)
        (fun _ _ => inl (lit "EOF marker not found"))
        (image_to_string E) (lower E) (str_of_datetime E).

(** A reader that opens the file but fails on its second page. *)
Definition broken_page (E : Env) : Env :=
  mkEnv (uuid4 E) (utcnow E) (ObjectId E) (send_message E) (insert_fault E)
        (find_fault E) (read_fault E)
        (fun _ b => inr [inr (Fake.text_of_bytes b); inl (lit "bad stream")])
        (image_to_string E) (lower E) (str_of_datetime E).

Definition no_ocr (E : Env) : Env :=
  mkEnv (uuid4 E) (utcnow E) (ObjectId E) (send_message E) (insert_fault E)
        (find_fault E) (read_fault E) (PdfReader E)
        (fun _ _ => inl (lit "tesseract is not installed"))
        (lower E) (str_of_datetime E).

Definition documents_down (E : Env) : Env :=
  mkEnv (uuid4 E) (utcnow E) (ObjectId E) (send_message E)
        (fun _ _ => Some (lit "not primary"))
        (find_fault E) (read_fault E) (PdfReader E) (image_to_string E)
        (lower E) (str_of_datetime E).

(** A reader that returns a fixed list of pages. *)
Definition paged (pages : list string) (E : Env) : Env :=
  mkEnv (uuid4 E) (utcnow E) (ObjectId E) (send_message E) (insert_fault E)
        (find_fault E) (read_fault E)
        (fun _ _ => inr (map (fun p => inr (lit p)) pages))
        (image_to_string E) (lower E) (str_of_datetime E).

Definition png (name body : string) : UploadFile.t :=
  UploadFile.mk (lit name) (Some (lit "image/png")) (Fake.bytes_of body).

Definition notice : UploadFile.t := Fake.pdf "notice.pdf" "Pay by Friday".

Definition ask_anonymous : ChatRequest.t :=
  ChatRequest.mk (lit "What is RTI?") None (lit "english").

(** A session that already holds [n] turns, stamped 0 to [n - 1], oldest
    first. *)
Definition busy (n : nat) : World :=
  mkWorld
    (mkStore (map (fun i => Fake.turn "t" "s1" "earlier" (Z.of_nat i)) (seq 0 n))
             [])
    n.

Definition anonymous_run : outcome ChatResponse.t * World :=
  chat_endpoint Fake.up ask_anonymous Fake.w0.

Definition busy_run : outcome ChatResponse.t * World :=
  chat_endpoint Fake.up Fake.ask (busy 100).

Definition hist_run : outcome ChatResponse.t * World :=
  chat_endpoint Fake.up Fake.ask Fake.w_hist.

Definition hist_upload : outcome UploadResult.t * World :=
  upload_document Fake.up notice (lit "s1") (lit "english") Fake.w_hist.

Definition second_run : outcome ChatResponse.t * World :=
  chat_endpoint Fake.up ask_anonymous (snd anonymous_run).

(** An upload whose language is written with a capital. *)
Definition capital_upload : outcome UploadResult.t * World :=
  upload_document Fake.up notice (lit "s1") (lit "Hindi") Fake.w0.

End Faults.

(** * Properties *)

(** ** Python strings *)

Section PyFacts.

Lemma lstrip_whitespace (s : str) :
  Forall (fun c => isspace c = true) s -> lstrip s = [].
Proof.
  induction 1 as [|c s Hc _ IH]; simpl; [reflexivity|].
  now rewrite Hc.
Qed.

Lemma lstrip_nil_inv (s : str) :
  lstrip s = [] -> Forall (fun c => isspace c = true) s.
Proof.
  induction s as [|c s IH]; simpl; [constructor|].
  destruct (isspace c) eqn:Hc; [|discriminate].
  intros H. constructor; auto.
Qed.

Lemma lstrip_head (s : str) c s' :
  lstrip s = c :: s' -> isspace c = false.
Proof.
  induction s as [|d s IH]; simpl; [discriminate|].
  destruct (isspace d) eqn:Hd; [exact IH|].
  intros H. now inversion H; subst.
Qed.

(** [s.strip()] is empty exactly when [s] consists of whitespace (the empty
    string included). *)
Lemma strip_nil_iff (s : str) :
  strip s = [] <-> Forall (fun c => isspace c = true) s.
Proof.
  unfold strip, rstrip. split.
  - intros H.
    assert (Hr : lstrip (rev (lstrip s)) = []).
    { rewrite <- (rev_involutive (lstrip (rev (lstrip s)))), H. reflexivity. }
    apply lstrip_nil_inv in Hr.
    destruct (lstrip s) as [|c t] eqn:Hs.
    + now apply lstrip_nil_inv.
    + exfalso. apply lstrip_head in Hs.
      assert (Hin : In c (rev (c :: t))) by (apply in_rev; rewrite rev_involutive; now left).
      rewrite List.Forall_forall in Hr. specialize (Hr c Hin). congruence.
  - intros H. rewrite (lstrip_whitespace s H). reflexivity.
Qed.

Lemma lit_length (s : string) : length (lit s) = String.length s.
Proof.
  unfold lit. rewrite length_map.
  induction s as [|a s IH]; simpl; [reflexivity|now rewrite IH].
Qed.

End PyFacts.

(** ** The order of the store *)

Section Order.

Lemma str_leb_total (a b : str) : str_leb a b = false -> str_leb b a = true.
Proof.
  revert b. induction a as [|x a IH]; intros [|y b]; simpl; try easy.
  destruct (x <? y)%N eqn:Hxy; [discriminate|].
  destruct (y <? x)%N eqn:Hyx; [reflexivity|].
  apply IH.
Qed.

Lemma bson_leb_total (a b : option value) :
  bson_leb a b = false -> bson_leb b a = true.
Proof.
  destruct a as [[x|x|x]|], b as [[y|y|y]|]; simpl;
    try (intros; reflexivity); try discriminate.
  - apply str_leb_total.
  - apply str_leb_total.
  - intros H. apply Z.leb_gt in H. apply Z.leb_le. lia.
Qed.

Variable k : string.

Lemma sort_insert_perm d l : sort_insert k d l ≡ₚ d :: l.
Proof.
  induction l as [|x l IH]; simpl; [reflexivity|].
  destruct (key_leb k d x); [reflexivity|].
  rewrite IH. apply Permutation_swap.
Qed.

Lemma sort_asc_perm l : sort_asc k l ≡ₚ l.
Proof.
  induction l as [|d l IH]; simpl; [reflexivity|].
  rewrite sort_insert_perm. now rewrite IH.
Qed.

Lemma sort_insert_hd d x l :
  key_leb k x d = true ->
  HdRel (fun a b => key_leb k a b = true) x l ->
  HdRel (fun a b => key_leb k a b = true) x (sort_insert k d l).
Proof.
  intros Hxd Hl. destruct l as [|y l]; simpl.
  - now constructor.
  - destruct (key_leb k d y); constructor; [exact Hxd|].
    now inversion Hl.
Qed.

Lemma sort_insert_sorted d l :
  Sorted (fun a b => key_leb k a b = true) l ->
  Sorted (fun a b => key_leb k a b = true) (sort_insert k d l).
Proof.
  induction 1 as [|x l Hs IH Hhd]; simpl.
  - repeat constructor.
  - destruct (key_leb k d x) eqn:Hdx.
    + constructor; [now constructor|now constructor].
    + constructor; [exact IH|].
      apply sort_insert_hd; [|exact Hhd].
      now apply bson_leb_total.
Qed.

Lemma sort_asc_sorted l :
  Sorted (fun a b => key_leb k a b = true) (sort_asc k l).
Proof.
  induction l as [|d l IH]; simpl; [constructor|].
  now apply sort_insert_sorted.
Qed.

Lemma take_sorted {A} (R : A -> A -> Prop) n (l : list A) :
  Sorted R l -> Sorted R (take n l).
Proof.
  intros H. revert n. induction H as [|x l Hs IH Hhd]; intros [|n]; simpl;
    try constructor.
  - apply IH.
  - destruct Hhd; destruct n; simpl; constructor; assumption.
Qed.

End Order.

(** ** Running the handlers *)

Section Run.

Variable E : Env.

Lemma new_ChatMessage_run sid msg resp ty w :
  new_ChatMessage E sid msg resp ty w =
  (Return (ChatMessage.mk (uuid4 E (tick w)) sid msg resp
                          (utcnow E (S (tick w))) ty),
   mkWorld (store w) (S (S (tick w)))).
Proof. reflexivity. Qed.

Lemma new_DocumentUpload_run sid name text expl w :
  new_DocumentUpload E sid name text expl w =
  (Return (DocumentUpload.mk (uuid4 E (tick w)) sid name text expl
                             (utcnow E (S (tick w)))),
   mkWorld (store w) (S (S (tick w)))).
Proof. reflexivity. Qed.

Lemma insert_one_ok c d w :
  insert_fault E (tick w) c = None ->
  insert_one E c d w =
  (Return tt,
   mkWorld (store_insert c (<["_id" := VObjectId (ObjectId E (tick w))]> d)
                         (store w))
           (S (tick w))).
Proof. intros H. unfold insert_one, bind, interact. simpl. now rewrite H. Qed.

Lemma insert_one_fail c d w m :
  insert_fault E (tick w) c = Some m ->
  insert_one E c d w = (Raise (Error m), mkWorld (store w) (S (tick w))).
Proof. intros H. unfold insert_one, bind, interact. simpl. now rewrite H. Qed.

(** [get_ai_response] never raises: what the model call raises is replaced
    by the apology. *)
Lemma get_ai_response_run msg sid lang w :
  get_ai_response E msg sid lang w =
  (Return (ai_reply E (tick w) msg sid lang),
   mkWorld (store w) (S (tick w))).
Proof.
  unfold get_ai_response, ai_reply, try_except, bind, interact. simpl.
  now destruct (send_message E (tick w) sid (with_language_prefix E lang msg)).
Qed.

Lemma pages_text_world pages text w :
  snd (pages_text pages text w) = w.
Proof.
  revert text. induction pages as [|[m|t] pages IH]; intros text; simpl;
    try reflexivity.
  apply IH.
Qed.

Lemma extract_text_from_pdf_world content w :
  snd (extract_text_from_pdf E content w) = mkWorld (store w) (S (tick w)).
Proof.
  unfold extract_text_from_pdf, try_except, bind, interact. simpl.
  destruct (PdfReader E (tick w) content) as [m|pages]; [reflexivity|].
  pose proof (pages_text_world pages [] (mkWorld (store w) (S (tick w)))) as H.
  destruct (pages_text pages [] _) as [[text|e] w1]; simpl in H; now subst.
Qed.

Lemma extract_text_from_image_world content w :
  snd (extract_text_from_image E content w) = mkWorld (store w) (S (tick w)).
Proof.
  unfold extract_text_from_image, try_except, bind, interact. simpl.
  now destruct (image_to_string E (tick w) content).
Qed.

Lemma extract_text_world file content w :
  snd (extract_text E file content w) = mkWorld (store w) (S (tick w)).
Proof.
  unfold extract_text. destruct (decide _).
  - apply extract_text_from_pdf_world.
  - apply extract_text_from_image_world.
Qed.

(** The extractors turn every failure into a 400. *)
Lemma extract_text_Raise file content w e w1 :
  extract_text E file content w = (Raise e, w1) ->
  exists d, e = HTTPException 400 d.
Proof.
  unfold extract_text, extract_text_from_pdf, extract_text_from_image,
    try_except, bind, interact. simpl.
  destruct (decide _).
  - destruct (PdfReader E (tick w) content) as [m|pages]; simpl.
    + intros [= <- _]. eauto.
    + destruct (pages_text pages [] _) as [[text|e'] w2]; simpl.
      * discriminate.
      * intros [= <- _]. eauto.
  - destruct (image_to_string E (tick w) content); simpl.
    + intros [= <- _]. eauto.
    + discriminate.
Qed.

Lemma extract_text_raw file w raw :
  raw_text E (tick w) file raw ->
  extract_text E file (UploadFile.content file) w =
  (Return (strip raw), mkWorld (store w) (S (tick w))).
Proof.
  unfold raw_text, extract_text, extract_text_from_pdf,
    extract_text_from_image, try_except, bind, interact.
  cbn [tick store]. destruct (decide _).
  - intros (pages & -> & Hp). now rewrite Hp.
  - now intros ->.
Qed.

(** A run of [upload_document] that returns went through every gate and
    both inserts: the answer and the final world are determined. *)
Lemma upload_document_Return file sid lang w r w' :
  upload_document E file sid lang w = (Return r, w') ->
  exists text,
    py_in (UploadFile.content_type file) allowed_types = true /\
    read_fault E (tick w) = None /\
    extract_text E file (UploadFile.content file)
                 (mkWorld (store w) (S (tick w)))
      = (Return text, mkWorld (store w) (S (S (tick w)))) /\
    text <> [] /\
    let n := tick w in
    let ai := ai_reply E (2 + n) (explanation_prompt lang text) sid lang in
    insert_fault E (5 + n) Coll_documents = None /\
    insert_fault E (8 + n) Coll_chat_messages = None /\
    r = UploadResult.mk (lit "Document processed successfully")
          (if (500 <? length text)%nat
           then take 500 text ++ lit "..." else text)
          ai sid /\
    w' = mkWorld
           (mkStore
              (chat_messages (store w) ++
                 [<["_id" := VObjectId (ObjectId E (8 + n))]>
                    (ChatMessage.dict
                       (ChatMessage.mk (uuid4 E (6 + n)) sid
                          (lit "Uploaded document: " ++ UploadFile.filename file)
                          ai (utcnow E (7 + n)) (lit "document")))])
              (documents (store w) ++
                 [<["_id" := VObjectId (ObjectId E (5 + n))]>
                    (DocumentUpload.dict
                       (DocumentUpload.mk (uuid4 E (3 + n)) sid
                          (UploadFile.filename file) text ai
                          (utcnow E (4 + n))))]))
           (9 + n).
Proof.
  unfold upload_document, try_except.
  destruct (py_in _ _) eqn:Hty.
  2:{ unfold bind, when, raise. cbn [negb]. discriminate. }
  unfold bind at 1. unfold when at 1. cbn [negb]. unfold ret at 1.
  unfold bind at 1. unfold file_read, bind at 1, interact at 1.
  destruct (read_fault E (tick w)) eqn:Hrd; [discriminate|].
  unfold ret at 1. unfold bind at 1.
  pose proof (extract_text_world file (UploadFile.content file)
                (mkWorld (store w) (S (tick w)))) as Hw.
  destruct (extract_text E file _ _) as [[text|e] w1] eqn:Hex;
    cbn [snd tick store] in Hw; subst w1.
  2:{ apply extract_text_Raise in Hex as [d ->]. discriminate. }
  unfold bind at 1.
  destruct text as [|c text]; [discriminate|].
  unfold when at 1. rewrite bool_decide_eq_false_2 by discriminate.
  unfold ret at 1.
  unfold bind at 1. rewrite get_ai_response_run.
  unfold bind at 1. rewrite new_DocumentUpload_run.
  unfold bind at 1. cbn [tick store].
  destruct (insert_fault E (S (S (S (S (S (tick w)))))) Coll_documents) eqn:Hd.
  { erewrite insert_one_fail by (cbn [tick]; eassumption). discriminate. }
  rewrite insert_one_ok by (cbn [tick]; assumption).
  unfold bind at 1. rewrite new_ChatMessage_run.
  unfold bind at 1. cbn [tick store].
  destruct (insert_fault E (S (S (S (S (S (S (S (S (tick w)))))))))
                         Coll_chat_messages) eqn:Hc.
  { erewrite insert_one_fail by (cbn [tick]; eassumption). discriminate. }
  rewrite insert_one_ok by (cbn [tick]; assumption).
  unfold ret. cbn [tick store store_insert chat_messages documents].
  intros [= <- <-].
  exists (c :: text). repeat split; try assumption; try discriminate.
Qed.

(** [upload_document] once the text is known to be extracted and not empty:
    the rest is decided by the two inserts. *)
Lemma upload_document_run file sid lang w text :
  py_in (UploadFile.content_type file) allowed_types = true ->
  read_fault E (tick w) = None ->
  extract_text E file (UploadFile.content file)
               (mkWorld (store w) (S (tick w)))
    = (Return text, mkWorld (store w) (S (S (tick w)))) ->
  text <> [] ->
  let n := tick w in
  let ai := ai_reply E (2 + n) (explanation_prompt lang text) sid lang in
  let doc := <["_id" := VObjectId (ObjectId E (5 + n))]>
               (DocumentUpload.dict
                  (DocumentUpload.mk (uuid4 E (3 + n)) sid
                     (UploadFile.filename file) text ai (utcnow E (4 + n)))) in
  let chat := <["_id" := VObjectId (ObjectId E (8 + n))]>
                (ChatMessage.dict
                   (ChatMessage.mk (uuid4 E (6 + n)) sid
                      (lit "Uploaded document: " ++ UploadFile.filename file)
                      ai (utcnow E (7 + n)) (lit "document"))) in
  upload_document E file sid lang w =
  match insert_fault E (5 + n) Coll_documents with
  | Some _ =>
      (Raise (HTTPException 500 (lit "Failed to process document")),
       mkWorld (store w) (6 + n))
  | None =>
      match insert_fault E (8 + n) Coll_chat_messages with
      | Some _ =>
          (Raise (HTTPException 500 (lit "Failed to process document")),
           mkWorld (mkStore (chat_messages (store w))
                            (documents (store w) ++ [doc])) (9 + n))
      | None =>
          (Return (UploadResult.mk (lit "Document processed successfully")
                     (if (500 <? length text)%nat
                      then take 500 text ++ lit "..." else text)
                     ai sid),
           mkWorld (mkStore (chat_messages (store w) ++ [chat])
                            (documents (store w) ++ [doc])) (9 + n))
      end
  end.
Proof.
  intros Hty Hrd Hex Hne n ai doc chat. subst n ai doc chat.
  unfold upload_document, try_except.
  unfold bind at 1. rewrite Hty. unfold when at 1. cbn [negb]. unfold ret at 1.
  unfold bind at 1. unfold file_read, bind at 1, interact at 1.
  rewrite Hrd. unfold ret at 1. unfold bind at 1. rewrite Hex.
  unfold bind at 1.
  destruct text as [|c text]; [congruence|].
  unfold when at 1. rewrite bool_decide_eq_false_2 by discriminate.
  unfold ret at 1.
  unfold bind at 1. rewrite get_ai_response_run.
  unfold bind at 1. rewrite new_DocumentUpload_run.
  unfold bind at 1. cbn [tick store plus].
  destruct (insert_fault E (S (S (S (S (S (tick w)))))) Coll_documents) eqn:Hd.
  { erewrite insert_one_fail by (cbn [tick]; eassumption). reflexivity. }
  rewrite insert_one_ok by (cbn [tick]; assumption).
  unfold bind at 1. rewrite new_ChatMessage_run.
  unfold bind at 1. cbn [tick store].
  destruct (insert_fault E (S (S (S (S (S (S (S (S (tick w)))))))))
                         Coll_chat_messages) eqn:Hc.
  { erewrite insert_one_fail by (cbn [tick]; eassumption). reflexivity. }
  rewrite insert_one_ok by (cbn [tick]; assumption).
  reflexivity.
Qed.

(** [chat_endpoint] in full: the outcome is decided by the one insert. *)
Lemma chat_endpoint_run request w :
  let sid := fst (session_of E request (tick w)) in
  let n := snd (session_of E request (tick w)) in
  let ai := ai_reply E n (ChatRequest.message request) sid
                     (ChatRequest.language request) in
  chat_endpoint E request w =
  match insert_fault E (3 + n) Coll_chat_messages with
  | Some _ =>
      (Raise (HTTPException 500 (lit "Failed to process chat request")),
       mkWorld (store w) (4 + n))
  | None =>
      (Return (ChatResponse.mk ai sid (utcnow E (4 + n))
                 [lit "Indian Legal Database";
                  lit "Government Schemes Portal"]),
       mkWorld
         (mkStore
            (chat_messages (store w) ++
               [<["_id" := VObjectId (ObjectId E (3 + n))]>
                  (ChatMessage.dict
                     (ChatMessage.mk (uuid4 E (1 + n)) sid
                        (ChatRequest.message request) ai
                        (utcnow E (2 + n)) (lit "text")))])
            (documents (store w)))
         (5 + n))
  end.
Proof.
  intros sid n ai.
  assert (Hs : (match ChatRequest.session_id request with
                | Some (c :: s) => ret (c :: s)
                | _ => new_uuid E
                end) w = (Return sid, mkWorld (store w) n)).
  { subst sid n. unfold session_of.
    destruct (ChatRequest.session_id request) as [[|c s]|];
      cbn [fst snd]; try reflexivity.
    unfold ret. now destruct w. }
  unfold chat_endpoint, try_except.
  unfold bind at 1. rewrite Hs.
  unfold bind at 1. rewrite get_ai_response_run.
  unfold bind at 1. rewrite new_ChatMessage_run.
  unfold bind at 1. cbn [tick store plus]. fold ai.
  destruct (insert_fault E (S (S (S n))) Coll_chat_messages) eqn:Hc.
  { erewrite insert_one_fail by (cbn [tick]; eassumption). reflexivity. }
  rewrite insert_one_ok by (cbn [tick]; assumption).
  reflexivity.
Qed.

Lemma clean_loop_map messages acc :
  clean_loop E messages acc = acc ++ map (clean_msg E) messages.
Proof.
  revert acc. induction messages as [|m ms IH]; intros acc; simpl.
  - now rewrite app_nil_r.
  - rewrite IH, <- app_assoc. reflexivity.
Qed.

(** [get_chat_history] in full. *)
Lemma get_chat_history_run sid w :
  get_chat_history E sid w =
  match find_fault E (tick w) with
  | Some m =>
      (Raise (HTTPException 500
                (lit "Failed to retrieve chat history: " ++ m)),
       mkWorld (store w) (S (tick w)))
  | None =>
      (Return (HistoryResult.mk
                 (map (clean_msg E)
                    (take 100 (sort_asc "timestamp"
                       (filter (fun d => matches_session sid d = true)
                               (chat_messages (store w))))))),
       mkWorld (store w) (S (tick w)))
  end.
Proof.
  unfold get_chat_history, try_except, find_sort_to_list, bind, interact.
  cbn [tick store].
  destruct (find_fault E (tick w)); [reflexivity|].
  unfold ret. now rewrite clean_loop_map.
Qed.

End Run.

(** ** Stored records *)

Section Records.

Lemma stored_ChatMessage_fields oid (r : ChatMessage.t) :
  let d := <["_id" := oid]> (ChatMessage.dict r) in
  d !! "id" = Some (VStr (ChatMessage.id r)) /\
  d !! "session_id" = Some (VStr (ChatMessage.session_id r)) /\
  d !! "message" = Some (VStr (ChatMessage.message r)) /\
  d !! "response" = Some (VStr (ChatMessage.response r)) /\
  d !! "timestamp" = Some (VDatetime (ChatMessage.timestamp r)) /\
  d !! "message_type" = Some (VStr (ChatMessage.message_type r)).
Proof. unfold ChatMessage.dict. cbv zeta. repeat split; by simplify_map_eq. Qed.

Lemma stored_DocumentUpload_fields oid (r : DocumentUpload.t) :
  let d := <["_id" := oid]> (DocumentUpload.dict r) in
  d !! "id" = Some (VStr (DocumentUpload.id r)) /\
  d !! "session_id" = Some (VStr (DocumentUpload.session_id r)) /\
  d !! "filename" = Some (VStr (DocumentUpload.filename r)) /\
  d !! "extracted_text" = Some (VStr (DocumentUpload.extracted_text r)) /\
  d !! "simplified_explanation"
    = Some (VStr (DocumentUpload.simplified_explanation r)) /\
  d !! "timestamp" = Some (VDatetime (DocumentUpload.timestamp r)).
Proof. unfold DocumentUpload.dict. cbv zeta. repeat split; by simplify_map_eq. Qed.

Lemma py_in_false (x : option str) (l : list str) :
  x ∉ (Some <$> l) -> py_in x l = false.
Proof.
  destruct x as [s|]; [|reflexivity]. simpl. intros H.
  apply bool_decide_eq_false. intros Hin. apply H.
  now apply list_elem_of_fmap_2.
Qed.

End Records.

Lemma py_in_true (x : option str) (l : list str) :
  x ∈ (Some <$> l) -> py_in x l = true.
Proof.
  intros H. apply list_elem_of_fmap in H as (s & -> & Hs).
  simpl. now apply bool_decide_eq_true.
Qed.

(** ** [/upload-document]: the two rejections *)

(** C1.  A request whose declared content type is not one of the accepted
    ones (PDF, JPEG under either spelling [image/jpeg] or [image/jpg], PNG;
    a missing header is not accepted either) is answered with status 400
    and the detail "Only PDF and image files are supported"; the world is
    left exactly as it was, so neither a DocumentUpload nor a ChatMessage is
    written. *)
Theorem upload_document_unsupported_type E file sid lang w :
  UploadFile.content_type file ∉ (Some <$> allowed_types) ->
  exists w',
    upload_document E file sid lang w =
      (Raise (HTTPException 400
                (lit "Only PDF and image files are supported")), w') /\
    documents (store w') = documents (store w) /\
    chat_messages (store w') = chat_messages (store w) /\
    w' = w.
Proof.
  intros H. exists w. repeat split.
  unfold upload_document, try_except, bind.
  now rewrite (py_in_false _ _ H).
Qed.

Lemma upload_document_unsupported_type_witness :
  exists w',
    upload_document Fake.up
      (UploadFile.mk (lit "notes.txt") (Some (lit "text/plain"))
                     (Fake.bytes_of "plain words"))
      (lit "s1") (lit "english") Fake.w0 =
      (Raise (HTTPException 400
                (lit "Only PDF and image files are supported")), w') /\
    documents (store w') = documents (store Fake.w0) /\
    chat_messages (store w') = chat_messages (store Fake.w0) /\
    w' = Fake.w0.
Proof.
  apply upload_document_unsupported_type.
  apply (bool_decide_eq_false_1 _). vm_compute. reflexivity.
Defined.

(** C2.  A request of an accepted type whose file is read and whose raw
    extracted text (the pages of the PDF joined by line feeds, or the OCR
    output) is empty or consists of whitespace only, which [strip] reduces
    to the empty string, is answered with status 400 and the detail "No text
    could be extracted from the document"; both collections are unchanged. *)
Theorem upload_document_no_text E file sid lang w raw :
  UploadFile.content_type file ∈ (Some <$> allowed_types) ->
  read_fault E (tick w) = None ->
  raw_text E (S (tick w)) file raw ->
  Forall (fun c => isspace c = true) raw ->
  exists w',
    upload_document E file sid lang w =
      (Raise (HTTPException 400
                (lit "No text could be extracted from the document")), w') /\
    documents (store w') = documents (store w) /\
    chat_messages (store w') = chat_messages (store w).
Proof.
  intros Hty Hrd Hraw Hsp.
  apply py_in_true in Hty.
  pose proof (extract_text_raw E file (mkWorld (store w) (S (tick w))) raw Hraw)
    as Hex.
  apply strip_nil_iff in Hsp. rewrite Hsp in Hex. cbn [tick store] in Hex.
  exists (mkWorld (store w) (S (S (tick w)))). split; [|split; reflexivity].
  unfold upload_document, try_except.
  unfold bind at 1. rewrite Hty. unfold when at 1. cbn [negb]. unfold ret at 1.
  unfold bind at 1. unfold file_read, bind at 1, interact at 1.
  rewrite Hrd. unfold ret at 1. unfold bind at 1. rewrite Hex.
  unfold bind at 1. reflexivity.
Qed.

Lemma upload_document_no_text_witness :
  exists w',
    upload_document Fake.up (Fake.pdf "blank.pdf" "   ")
      (lit "s1") (lit "english") Fake.w0 =
      (Raise (HTTPException 400
                (lit "No text could be extracted from the document")), w') /\
    documents (store w') = documents (store Fake.w0) /\
    chat_messages (store w') = chat_messages (store Fake.w0).
Proof.
  apply (upload_document_no_text Fake.up (Fake.pdf "blank.pdf" "   ")
           (lit "s1") (lit "english") Fake.w0 (lit "   " ++ nl)).
  - apply (bool_decide_eq_true_1 _). vm_compute. reflexivity.
  - reflexivity.
  - unfold raw_text. rewrite decide_True by reflexivity.
    exists [inr (lit "   ")]. split; reflexivity.
  - repeat constructor.
Defined.

(** ** [/upload-document]: what a successful request leaves behind *)

(** C3.  When [upload_document] returns, one DocumentUpload has been added
    whose [extracted_text] is the whole text the extraction returned; the
    [extracted_text] of the answer is that same text when it has at most
    500 code points, and its first 500 code points followed by "..." when
    it is longer. *)
Theorem upload_document_extracted_text E file sid lang w r w' :
  upload_document E file sid lang w = (Return r, w') ->
  exists text d,
    extract_text E file (UploadFile.content file)
                 (mkWorld (store w) (S (tick w)))
      = (Return text, mkWorld (store w) (S (S (tick w)))) /\
    documents (store w') = documents (store w) ++ [d] /\
    d !! "extracted_text" = Some (VStr text) /\
    (length text <= 500 -> UploadResult.extracted_text r = text)%nat /\
    (500 < length text ->
     UploadResult.extracted_text r = take 500 text ++ lit "...")%nat.
Proof.
  intros H.
  apply upload_document_Return in H
    as (text & _ & _ & Hex & _ & _ & _ & -> & ->).
  eexists text, _. split; [exact Hex|]. split; [reflexivity|].
  split; [apply stored_DocumentUpload_fields|].
  cbn [UploadResult.extracted_text]. split; intros Hlen.
  - apply Nat.ltb_ge in Hlen. now rewrite Hlen.
  - apply Nat.ltb_lt in Hlen. now rewrite Hlen.
Qed.

(** C6.  When [upload_document] returns, exactly one document has been
    appended to each collection; both carry the session of the request; the
    ChatMessage has type "document", the message "Uploaded document: "
    followed by the file name, and as response the explanation that the
    DocumentUpload stores as [simplified_explanation] and the answer
    returns. *)
Theorem upload_document_persists_pair E file sid lang w r w' :
  upload_document E file sid lang w = (Return r, w') ->
  exists d c ai,
    documents (store w') = documents (store w) ++ [d] /\
    chat_messages (store w') = chat_messages (store w) ++ [c] /\
    d !! "session_id" = Some (VStr sid) /\
    c !! "session_id" = Some (VStr sid) /\
    c !! "message_type" = Some (VStr (lit "document")) /\
    c !! "message"
      = Some (VStr (lit "Uploaded document: " ++ UploadFile.filename file)) /\
    c !! "response" = Some (VStr ai) /\
    d !! "simplified_explanation" = Some (VStr ai) /\
    UploadResult.explanation r = ai /\
    UploadResult.session_id r = sid.
Proof.
  intros H.
  apply upload_document_Return in H
    as (text & _ & _ & _ & _ & _ & _ & -> & ->).
  eexists _, _, _.
  split; [reflexivity|]. split; [reflexivity|].
  repeat split;
    first [ apply stored_DocumentUpload_fields
          | apply stored_ChatMessage_fields ].
Qed.

(** C10.  The two writes of [upload_document] are not one transaction: when
    the insert into [documents] succeeds and the insert into
    [chat_messages] raises, the request is answered with status 500 and the
    DocumentUpload stays in the store, without its ChatMessage. *)
Theorem upload_document_not_atomic E file sid lang w text m :
  UploadFile.content_type file ∈ (Some <$> allowed_types) ->
  read_fault E (tick w) = None ->
  extract_text E file (UploadFile.content file)
               (mkWorld (store w) (S (tick w)))
    = (Return text, mkWorld (store w) (S (S (tick w)))) ->
  text <> [] ->
  insert_fault E (5 + tick w) Coll_documents = None ->
  insert_fault E (8 + tick w) Coll_chat_messages = Some m ->
  exists w' d,
    upload_document E file sid lang w =
      (Raise (HTTPException 500 (lit "Failed to process document")), w') /\
    documents (store w') = documents (store w) ++ [d] /\
    d !! "extracted_text" = Some (VStr text) /\
    d !! "session_id" = Some (VStr sid) /\
    d !! "filename" = Some (VStr (UploadFile.filename file)) /\
    chat_messages (store w') = chat_messages (store w).
Proof.
  intros Hty Hrd Hex Hne Hd Hc.
  apply py_in_true in Hty.
  rewrite (upload_document_run E file sid lang w text Hty Hrd Hex Hne).
  cbv zeta. rewrite Hd, Hc.
  eexists _, _. split; [reflexivity|]. split; [reflexivity|].
  repeat split; apply stored_DocumentUpload_fields.
Qed.

Lemma upload_document_extracted_text_witness :
  exists text d,
    extract_text Fake.up Fake.long_pdf (UploadFile.content Fake.long_pdf)
                 (mkWorld (store Fake.w0) (S (tick Fake.w0)))
      = (Return text, mkWorld (store Fake.w0) (S (S (tick Fake.w0)))) /\
    documents (store (snd Fake.long_upload))
      = documents (store Fake.w0) ++ [d] /\
    d !! "extracted_text" = Some (VStr text) /\
    (length text <= 500 ->
     UploadResult.extracted_text
       (Fake.returned Fake.no_upload Fake.long_upload) = text)%nat /\
    (500 < length text ->
     UploadResult.extracted_text
       (Fake.returned Fake.no_upload Fake.long_upload)
     = take 500 text ++ lit "...")%nat.
Proof.
  apply (upload_document_extracted_text Fake.up Fake.long_pdf (lit "s1")
           (lit "english") Fake.w0).
  vm_compute. reflexivity.
Defined.

Lemma upload_document_persists_pair_witness :
  exists d c ai,
    documents (store (snd Fake.short_upload))
      = documents (store Fake.w0) ++ [d] /\
    chat_messages (store (snd Fake.short_upload))
      = chat_messages (store Fake.w0) ++ [c] /\
    d !! "session_id" = Some (VStr (lit "s1")) /\
    c !! "session_id" = Some (VStr (lit "s1")) /\
    c !! "message_type" = Some (VStr (lit "document")) /\
    c !! "message"
      = Some (VStr (lit "Uploaded document: " ++ lit "notice.pdf")) /\
    c !! "response" = Some (VStr ai) /\
    d !! "simplified_explanation" = Some (VStr ai) /\
    UploadResult.explanation
      (Fake.returned Fake.no_upload Fake.short_upload) = ai /\
    UploadResult.session_id
      (Fake.returned Fake.no_upload Fake.short_upload) = lit "s1".
Proof.
  apply (upload_document_persists_pair Fake.up
           (Fake.pdf "notice.pdf" "Pay by Friday") (lit "s1") (lit "hindi")
           Fake.w0).
  vm_compute. reflexivity.
Defined.

Lemma upload_document_not_atomic_witness :
  exists w' d,
    upload_document (Fake.env true false true)
      (Fake.pdf "notice.pdf" "Pay by Friday") (lit "s1") (lit "english")
      Fake.w0 =
      (Raise (HTTPException 500 (lit "Failed to process document")), w') /\
    documents (store w') = documents (store Fake.w0) ++ [d] /\
    d !! "extracted_text" = Some (VStr (lit "Pay by Friday")) /\
    d !! "session_id" = Some (VStr (lit "s1")) /\
    d !! "filename" = Some (VStr (lit "notice.pdf")) /\
    chat_messages (store w') = chat_messages (store Fake.w0).
Proof.
  apply (upload_document_not_atomic (Fake.env true false true)
           (Fake.pdf "notice.pdf" "Pay by Friday") (lit "s1") (lit "english")
           Fake.w0 (lit "Pay by Friday") (lit "write failed")).
  - apply (bool_decide_eq_true_1 _). vm_compute. reflexivity.
  - reflexivity.
  - vm_compute. reflexivity.
  - discriminate.
  - reflexivity.
  - reflexivity.
Defined.

(** ** [/chat] *)

Lemma with_language_prefix_longer E language message :
  (length message < length (with_language_prefix E language message))%nat.
Proof.
  unfold with_language_prefix.
  destruct (decide _); rewrite length_app, lit_length; simpl; lia.
Qed.

(** C4.  When the call of the model raises, [/chat] does not pass the
    failure on: if the insert succeeds the request returns normally and its
    [response] is the fixed apology; the request can only raise when the
    insert into the store failed, and then with status 500. *)
Theorem chat_endpoint_ai_failure E request w sid n err :
  session_of E request (tick w) = (sid, n) ->
  send_message E n sid
    (with_language_prefix E (ChatRequest.language request)
                          (ChatRequest.message request)) = inl err ->
  (insert_fault E (3 + n) Coll_chat_messages = None ->
   exists r w',
     chat_endpoint E request w = (Return r, w') /\
     ChatResponse.response r = APOLOGY /\
     ChatResponse.session_id r = sid) /\
  (forall e w',
     chat_endpoint E request w = (Raise e, w') ->
     e = HTTPException 500 (lit "Failed to process chat request") /\
     insert_fault E (3 + n) Coll_chat_messages <> None).
Proof.
  intros Hs Hai.
  pose proof (chat_endpoint_run E request w) as Hrun.
  cbv zeta in Hrun. rewrite Hs in Hrun. cbn [fst snd] in Hrun.
  unfold ai_reply in Hrun. rewrite Hai in Hrun.
  split.
  - intros Hins. rewrite Hins in Hrun. eexists _, _. split; [exact Hrun|].
    split; reflexivity.
  - intros e w' Hr. rewrite Hr in Hrun.
    destruct (insert_fault E (3 + n) Coll_chat_messages); [|discriminate].
    split; [congruence|discriminate].
Qed.

(** C5.  When [chat_endpoint] returns, one ChatMessage has been appended
    whose type is "text" and whose [message] is the message of the request
    as it came, which is never the prefixed text sent to the model. *)
Theorem chat_endpoint_stores_original E request w r w' :
  chat_endpoint E request w = (Return r, w') ->
  exists d,
    chat_messages (store w') = chat_messages (store w) ++ [d] /\
    d !! "message_type" = Some (VStr (lit "text")) /\
    d !! "message" = Some (VStr (ChatRequest.message request)) /\
    d !! "response" = Some (VStr (ChatResponse.response r)) /\
    ChatRequest.message request
      <> with_language_prefix E (ChatRequest.language request)
                              (ChatRequest.message request).
Proof.
  intros H. rewrite chat_endpoint_run in H. cbv zeta in H.
  destruct (insert_fault E _ Coll_chat_messages); [discriminate|].
  injection H as <- <-. eexists. split; [reflexivity|].
  repeat split; try apply stored_ChatMessage_fields.
  intros Heq.
  pose proof (with_language_prefix_longer E (ChatRequest.language request)
                (ChatRequest.message request)) as Hlen.
  rewrite <- Heq in Hlen. lia.
Qed.

(** C9.  When the call of the model raises and the insert succeeds, the
    turn is stored like any other: a ChatMessage of type "text" with the
    message of the request and the apology as its response. *)
Theorem chat_endpoint_failed_turn_stored E request w sid n err :
  session_of E request (tick w) = (sid, n) ->
  send_message E n sid
    (with_language_prefix E (ChatRequest.language request)
                          (ChatRequest.message request)) = inl err ->
  insert_fault E (3 + n) Coll_chat_messages = None ->
  exists r w' d,
    chat_endpoint E request w = (Return r, w') /\
    chat_messages (store w') = chat_messages (store w) ++ [d] /\
    d !! "response" = Some (VStr APOLOGY) /\
    d !! "message" = Some (VStr (ChatRequest.message request)) /\
    d !! "message_type" = Some (VStr (lit "text")) /\
    d !! "session_id" = Some (VStr sid) /\
    ChatResponse.response r = APOLOGY.
Proof.
  intros Hs Hai Hins.
  pose proof (chat_endpoint_run E request w) as Hrun.
  cbv zeta in Hrun. rewrite Hs in Hrun. cbn [fst snd] in Hrun.
  unfold ai_reply in Hrun. rewrite Hai, Hins in Hrun.
  eexists _, _, _. split; [exact Hrun|]. split; [reflexivity|].
  repeat split; apply stored_ChatMessage_fields.
Qed.

Lemma chat_endpoint_ai_failure_witness :
  (insert_fault (Fake.env false true true) (3 + 0) Coll_chat_messages = None ->
   exists r w',
     chat_endpoint (Fake.env false true true) Fake.ask Fake.w0
       = (Return r, w') /\
     ChatResponse.response r = APOLOGY /\
     ChatResponse.session_id r = lit "s1") /\
  (forall e w',
     chat_endpoint (Fake.env false true true) Fake.ask Fake.w0
       = (Raise e, w') ->
     e = HTTPException 500 (lit "Failed to process chat request") /\
     insert_fault (Fake.env false true true) (3 + 0) Coll_chat_messages
       <> None).
Proof.
  apply (chat_endpoint_ai_failure (Fake.env false true true) Fake.ask Fake.w0
           (lit "s1") 0%nat (lit "connection refused")).
  - reflexivity.
  - reflexivity.
Defined.

Lemma chat_endpoint_stores_original_witness :
  exists d,
    chat_messages (store (snd Fake.chat_run))
      = chat_messages (store Fake.w0) ++ [d] /\
    d !! "message_type" = Some (VStr (lit "text")) /\
    d !! "message" = Some (VStr (lit "What is RTI?")) /\
    d !! "response"
      = Some (VStr (ChatResponse.response
                      (Fake.returned Fake.no_answer Fake.chat_run))) /\
    lit "What is RTI?"
      <> with_language_prefix Fake.up (lit "Hindi") (lit "What is RTI?").
Proof.
  apply (chat_endpoint_stores_original Fake.up Fake.ask Fake.w0).
  vm_compute. reflexivity.
Defined.

Lemma chat_endpoint_failed_turn_stored_witness :
  exists r w' d,
    chat_endpoint (Fake.env false true true) Fake.ask Fake.w0
      = (Return r, w') /\
    chat_messages (store w') = chat_messages (store Fake.w0) ++ [d] /\
    d !! "response" = Some (VStr APOLOGY) /\
    d !! "message" = Some (VStr (lit "What is RTI?")) /\
    d !! "message_type" = Some (VStr (lit "text")) /\
    d !! "session_id" = Some (VStr (lit "s1")) /\
    ChatResponse.response r = APOLOGY.
Proof.
  apply (chat_endpoint_failed_turn_stored (Fake.env false true true) Fake.ask
           Fake.w0 (lit "s1") 0%nat (lit "connection refused")).
  - reflexivity.
  - reflexivity.
  - reflexivity.
Defined.

(** ** [/chat-history/{session_id}] *)

Section History.

Variable E : Env.

Lemma clean_msg_dom msg : dom (clean_msg E msg) = history_fields.
Proof.
  unfold clean_msg, history_fields.
  rewrite !dom_insert_L, dom_empty_L. set_solver.
Qed.

Lemma clean_msg_fields msg :
  let c := clean_msg E msg in
  c !! "id" = Some (get "id" (VStr (py_str E (get "_id" (VStr []) msg))) msg) /\
  c !! "session_id" = Some (get "session_id" (VStr []) msg) /\
  c !! "message" = Some (get "message" (VStr []) msg) /\
  c !! "response" = Some (get "response" (VStr []) msg) /\
  c !! "timestamp" = Some (get "timestamp" (VStr []) msg) /\
  c !! "message_type" = Some (get "message_type" (VStr (lit "text")) msg).
Proof. unfold clean_msg. cbv zeta. repeat split; by simplify_map_eq. Qed.

Lemma clean_msg_timestamp_mono a b :
  key_leb "timestamp" a b = true ->
  key_leb "timestamp" (clean_msg E a) (clean_msg E b) = true.
Proof.
  unfold key_leb.
  destruct (clean_msg_fields a) as (_ & _ & _ & _ & -> & _).
  destruct (clean_msg_fields b) as (_ & _ & _ & _ & -> & _).
  unfold get.
  destruct (a !! "timestamp") as [[x|x|x]|], (b !! "timestamp") as [[y|y|y]|];
    simpl; intros H; try reflexivity; try discriminate; exact H.
Qed.

Lemma map_sorted {A B} (R : A -> A -> Prop) (R' : B -> B -> Prop) (f : A -> B) l :
  (forall a b, R a b -> R' (f a) (f b)) ->
  Sorted R l -> Sorted R' (map f l).
Proof.
  intros Hf. induction 1 as [|x l Hs IH Hhd]; simpl; constructor.
  - exact IH.
  - destruct Hhd; simpl; constructor. now apply Hf.
Qed.

Lemma matches_session_spec sid (d : document) :
  matches_session sid d = true <-> d !! "session_id" = Some (VStr sid).
Proof. unfold matches_session. apply bool_decide_eq_true. Qed.

(** C7.  When the store answers the query, [get_chat_history] returns; its
    answer has at most 100 entries, made from stored ChatMessages of the
    session (the first 100 of them in ascending order of [timestamp]);
    every entry carries the session of the path, the entries are in
    ascending order of [timestamp], and each has exactly the fields [id],
    [session_id], [message], [response], [timestamp] and [message_type],
    copied from the stored document when it has them; a missing [id] is
    the text of the store's [_id], a missing [session_id], [message],
    [response] or [timestamp] is the empty string, and a missing
    [message_type] is "text". *)
Theorem get_chat_history_shape sid w :
  find_fault E (tick w) = None ->
  exists msgs all w',
    get_chat_history E sid w
      = (Return (HistoryResult.mk (map (clean_msg E) msgs)), w') /\
    store w' = store w /\
    all ≡ₚ filter (fun d => matches_session sid d = true)
                  (chat_messages (store w)) /\
    msgs = take 100 all /\
    (length (map (clean_msg E) msgs) <= 100)%nat /\
    Forall (fun c : document => c !! "session_id" = Some (VStr sid))
           (map (clean_msg E) msgs) /\
    Sorted (fun a b : document =>
              bson_leb (a !! "timestamp") (b !! "timestamp") = true)
           (map (clean_msg E) msgs) /\
    Forall (fun msg : document =>
              let c := clean_msg E msg in
              dom c = history_fields /\
              c !! "id" = Some (match msg !! "id", msg !! "_id" with
                                | Some v, _ => v
                                | None, Some oid => VStr (py_str E oid)
                                | None, None => VStr []
                                end) /\
              (forall k, k ∈ ["session_id"; "message"; "response"; "timestamp"] ->
                         c !! k = Some (default (VStr []) (msg !! k))) /\
              c !! "message_type"
                = Some (default (VStr (lit "text")) (msg !! "message_type")))
           msgs.
Proof.
  intros Hf. rewrite get_chat_history_run, Hf.
  set (sel := filter (fun d => matches_session sid d = true)
                     (chat_messages (store w))).
  exists (take 100 (sort_asc "timestamp" sel)), (sort_asc "timestamp" sel).
  eexists.
  split; [reflexivity|]. split; [reflexivity|].
  split; [apply sort_asc_perm|]. split; [reflexivity|].
  assert (Hsel : Forall (fun d : document => d !! "session_id" = Some (VStr sid))
                        (take 100 (sort_asc "timestamp" sel))).
  { apply Forall_take. rewrite sort_asc_perm. subst sel.
    apply List.Forall_forall. intros d Hd.
    apply list_elem_of_In, list_elem_of_filter in Hd as [Hd _].
    now apply matches_session_spec. }
  split.
  { rewrite length_map, length_take. lia. }
  split.
  { apply Forall_fmap. eapply Forall_impl; [exact Hsel|].
    intros d Hd. simpl.
    destruct (clean_msg_fields d) as (_ & -> & _).
    unfold get. now rewrite Hd. }
  split.
  { apply (map_sorted (fun a b => key_leb "timestamp" a b = true)).
    - apply clean_msg_timestamp_mono.
    - apply take_sorted, sort_asc_sorted. }
  apply List.Forall_forall. intros msg _. cbv zeta.
  destruct (clean_msg_fields msg) as (Hid & Hs & Hm & Hr & Ht & Hy).
  split; [apply clean_msg_dom|]. split.
  { rewrite Hid. unfold get.
    destruct (msg !! "id"); [reflexivity|].
    now destruct (msg !! "_id"). }
  split; [|exact Hy].
  intros k Hk.
  repeat (apply elem_of_cons in Hk as [->|Hk]; [assumption|]).
  now apply elem_of_nil in Hk.
Qed.

(** C8.  For a session without any stored ChatMessage, [get_chat_history]
    returns the empty list of messages when the store answers the query;
    it does not raise. *)
Theorem get_chat_history_empty sid w :
  find_fault E (tick w) = None ->
  Forall (fun d : document => d !! "session_id" <> Some (VStr sid))
         (chat_messages (store w)) ->
  exists w',
    get_chat_history E sid w = (Return (HistoryResult.mk []), w') /\
    store w' = store w.
Proof.
  intros Hf Hno. rewrite get_chat_history_run, Hf.
  assert (Hnil : filter (fun d => matches_session sid d = true)
                        (chat_messages (store w)) = []).
  { induction Hno as [|d l Hd _ IH]; [reflexivity|].
    rewrite filter_cons_False; [exact IH|].
    now rewrite matches_session_spec. }
  rewrite Hnil. exists (mkWorld (store w) (S (tick w))).
  split; reflexivity.
Qed.

End History.

Lemma get_chat_history_shape_witness :
  exists msgs all w',
    get_chat_history Fake.up (lit "s1") Fake.w_hist
      = (Return (HistoryResult.mk (map (clean_msg Fake.up) msgs)), w') /\
    store w' = store Fake.w_hist /\
    all ≡ₚ filter (fun d => matches_session (lit "s1") d = true)
                  (chat_messages (store Fake.w_hist)) /\
    msgs = take 100 all /\
    (length (map (clean_msg Fake.up) msgs) <= 100)%nat /\
    Forall (fun c : document => c !! "session_id" = Some (VStr (lit "s1")))
           (map (clean_msg Fake.up) msgs) /\
    Sorted (fun a b : document =>
              bson_leb (a !! "timestamp") (b !! "timestamp") = true)
           (map (clean_msg Fake.up) msgs) /\
    Forall (fun msg : document =>
              let c := clean_msg Fake.up msg in
              dom c = history_fields /\
              c !! "id" = Some (match msg !! "id", msg !! "_id" with
                                | Some v, _ => v
                                | None, Some oid => VStr (py_str Fake.up oid)
                                | None, None => VStr []
                                end) /\
              (forall k, k ∈ ["session_id"; "message"; "response"; "timestamp"] ->
                         c !! k = Some (default (VStr []) (msg !! k))) /\
              c !! "message_type"
                = Some (default (VStr (lit "text")) (msg !! "message_type")))
           msgs.
Proof.
  apply (get_chat_history_shape Fake.up (lit "s1") Fake.w_hist).
  reflexivity.
Defined.

Lemma get_chat_history_empty_witness :
  exists w',
    get_chat_history Fake.up (lit "s9") Fake.w_hist
      = (Return (HistoryResult.mk []), w') /\
    store w' = store Fake.w_hist.
Proof.
  apply (get_chat_history_empty Fake.up (lit "s9") Fake.w_hist).
  - reflexivity.
  - repeat constructor; apply (bool_decide_eq_false_1 _); vm_compute;
      reflexivity.
Defined.

(** ** The handlers on the fake collaborators *)

Example long_upload_quotes_503 :
  length (UploadResult.extracted_text
            (Fake.returned Fake.no_upload Fake.long_upload)) = 503%nat /\
  length (documents (store (snd Fake.long_upload))) = 1%nat /\
  length (chat_messages (store (snd Fake.long_upload))) = 1%nat.
Proof. vm_compute. repeat split. Qed.

Example jpg_spelling_is_accepted :
  fst (upload_document Fake.up
         (UploadFile.mk (lit "scan.jpg") (Some (lit "image/jpg"))
                        (Fake.bytes_of "Summons"))
         (lit "s1") (lit "english") Fake.w0)
  = Return (UploadResult.mk
              (lit "Document processed successfully") (lit "Summons")
              (Fake.returned Fake.no_upload
                 (upload_document Fake.up
                    (UploadFile.mk (lit "scan.jpg") (Some (lit "image/jpg"))
                                   (Fake.bytes_of "Summons"))
                    (lit "s1") (lit "english") Fake.w0)).(UploadResult.explanation)
              (lit "s1")).
Proof. vm_compute. reflexivity. Qed.

Example empty_session_gets_fresh_id :
  ChatResponse.session_id
    (Fake.returned Fake.no_answer
       (chat_endpoint Fake.up
          (ChatRequest.mk (lit "hello") (Some []) (lit "english")) Fake.w0))
  = uuid4 Fake.up 0.
Proof. vm_compute. reflexivity. Qed.

Example history_of_s1 :
  fst (get_chat_history Fake.up (lit "s1") Fake.w_hist)
  = Return (HistoryResult.mk
              [clean_msg Fake.up Fake.bare;
               clean_msg Fake.up (Fake.turn "a" "s1" "first" 10);
               clean_msg Fake.up (Fake.turn "b" "s1" "second" 20)]).
Proof. vm_compute. reflexivity. Qed.

Example bare_entry_defaults :
  clean_msg Fake.up Fake.bare !! "id" = Some (VStr (lit "65a1")) /\
  clean_msg Fake.up Fake.bare !! "timestamp" = Some (VStr []) /\
  clean_msg Fake.up Fake.bare !! "message_type" = Some (VStr (lit "text")).
Proof. vm_compute. repeat split. Qed.

Example store_down_history_500 :
  fst (get_chat_history (Fake.env true true false) (lit "s1") Fake.w_hist)
  = Raise (HTTPException 500
             (lit "Failed to retrieve chat history: server selection timeout")).
Proof. vm_compute. reflexivity. Qed.

(** * Further properties of the handlers *)

(** ** What [strip] leaves *)

Section StripFacts.

Lemma lstrip_decompose (s : str) :
  exists p, s = p ++ lstrip s /\ Forall (fun c => isspace c = true) p.
Proof.
  induction s as [|c s (p & IH & Hp)]; simpl.
  - exists []. split; [reflexivity|constructor].
  - destruct (isspace c) eqn:Hc.
    + exists (c :: p). split; [simpl; now f_equal|now constructor].
    + exists []. split; [reflexivity|constructor].
Qed.

Lemma lstrip_app_whitespace (p q : str) :
  Forall (fun c => isspace c = true) p -> lstrip (p ++ q) = lstrip q.
Proof.
  induction 1 as [|c p Hc _ IH]; simpl; [reflexivity|]. now rewrite Hc.
Qed.

Lemma lstrip_app_keeps (s x : str) :
  lstrip s <> [] -> lstrip (s ++ x) = lstrip s ++ x.
Proof.
  induction s as [|c s IH]; simpl; [congruence|].
  destruct (isspace c); [exact IH|reflexivity].
Qed.

Lemma rstrip_decompose (s : str) :
  exists q, s = rstrip s ++ q /\ Forall (fun c => isspace c = true) q.
Proof.
  unfold rstrip. destruct (lstrip_decompose (rev s)) as (p & Hp & Hsp).
  exists (rev p). split.
  - rewrite <- rev_app_distr, <- Hp. now rewrite rev_involutive.
  - apply List.Forall_forall. intros c Hc. apply in_rev in Hc.
    rewrite List.Forall_forall in Hsp. now apply Hsp.
Qed.

Lemma strip_first (s : str) c t :
  strip s = c :: t -> isspace c = false.
Proof.
  unfold strip. intros H.
  destruct (rstrip_decompose (lstrip s)) as (q & Hq & _).
  rewrite H in Hq. simpl in Hq. now apply lstrip_head in Hq.
Qed.

Lemma strip_last (s : str) t c :
  strip s = t ++ [c] -> isspace c = false.
Proof.
  unfold strip, rstrip. intros H.
  apply (f_equal (@rev N)) in H.
  rewrite rev_involutive, rev_app_distr in H. simpl in H.
  now apply lstrip_head in H.
Qed.

Lemma strip_app_whitespace (s ws : str) :
  Forall (fun c => isspace c = true) ws -> strip (s ++ ws) = strip s.
Proof.
  intros Hws. destruct (lstrip s) as [|c t] eqn:Hs.
  - assert (Hall : Forall (fun c => isspace c = true) s)
      by now apply lstrip_nil_inv.
    rewrite (proj2 (strip_nil_iff s) Hall).
    apply strip_nil_iff. now apply Forall_app.
  - unfold strip, rstrip.
    rewrite lstrip_app_keeps by congruence.
    rewrite rev_app_distr, lstrip_app_whitespace; [reflexivity|].
    apply List.Forall_forall. intros x Hx. apply in_rev in Hx.
    rewrite List.Forall_forall in Hws. now apply Hws.
Qed.

Lemma pages_concat_join (texts : list str) :
  strip (concat (map (fun t => t ++ nl) texts)) = strip (str_join nl texts).
Proof.
  assert (H : forall l, l <> [] ->
            concat (map (fun t => t ++ nl) l) = str_join nl l ++ nl).
  { induction l as [|x l IH]; [congruence|]. intros _.
    destruct l as [|y l].
    - simpl. now rewrite app_nil_r.
    - change (concat (map (fun t => t ++ nl) (x :: y :: l)))
        with ((x ++ nl) ++ concat (map (fun t => t ++ nl) (y :: l))).
      rewrite IH by discriminate.
      change (str_join nl (x :: y :: l)) with (x ++ nl ++ str_join nl (y :: l)).
      now rewrite <- !app_assoc. }
  destruct texts as [|x l]; [reflexivity|].
  rewrite H by discriminate. apply strip_app_whitespace.
  repeat constructor.
Qed.

End StripFacts.

(** ** Text extraction *)

Section Extraction.

Variable E : Env.

Lemma pages_text_all_ok (texts : list str) acc w :
  pages_text (map inr texts) acc w
  = (Return (acc ++ concat (map (fun t => t ++ nl) texts)), w).
Proof.
  revert acc. induction texts as [|t texts IH]; intros acc; simpl.
  - now rewrite app_nil_r.
  - rewrite IH. now rewrite <- app_assoc.
Qed.

Lemma pages_text_some_fail (pages : list (str + str)) acc w :
  (exists m, inl m ∈ pages) ->
  exists m, pages_text pages acc w = (Raise (Error m), w).
Proof.
  revert acc. induction pages as [|[m|t] pages IH]; intros acc [m' Hin].
  - now apply elem_of_nil in Hin.
  - now exists m.
  - simpl. apply IH. exists m'.
    apply elem_of_cons in Hin as [Heq|Hin]; [discriminate|exact Hin].
Qed.

(** X1.  When the reader opens the file and every page yields its text,
    [extract_text_from_pdf] returns the page texts joined by line feeds and
    stripped: the line feed written after the last page is never part of
    the result, and neither is any whitespace around the document. *)
Theorem extract_text_from_pdf_joins_pages content w (texts : list str) :
  PdfReader E (tick w) content = inr (map inr texts) ->
  extract_text_from_pdf E content w
  = (Return (strip (str_join nl texts)), mkWorld (store w) (S (tick w))).
Proof.
  intros H. unfold extract_text_from_pdf, try_except, bind, interact.
  cbn [tick store]. rewrite H, pages_text_all_ok.
  unfold ret. now rewrite app_nil_l, pages_concat_join.
Qed.

(** X2.  When the reader cannot open the file, or any one page fails to
    yield its text, [extract_text_from_pdf] raises status 400 with the fixed
    detail "Failed to extract text from PDF": the text of the library's
    error is not passed on, and the pages read so far are dropped. *)
Theorem extract_text_from_pdf_failure content w :
  (exists m, PdfReader E (tick w) content = inl m) \/
  (exists pages m, PdfReader E (tick w) content = inr pages /\ inl m ∈ pages) ->
  extract_text_from_pdf E content w
  = (Raise (HTTPException 400 (lit "Failed to extract text from PDF")),
     mkWorld (store w) (S (tick w))).
Proof.
  intros H. unfold extract_text_from_pdf, try_except, bind, interact.
  cbn [tick store].
  destruct H as [[m ->]|(pages & m & -> & Hin)]; [reflexivity|].
  destruct (pages_text_some_fail pages []
              (mkWorld (store w) (S (tick w))) (ex_intro _ m Hin)) as [m' ->].
  reflexivity.
Qed.

Lemma extract_text_Return_strip file content w text w1 :
  extract_text E file content w = (Return text, w1) ->
  exists raw, text = strip raw.
Proof.
  unfold extract_text, extract_text_from_pdf, extract_text_from_image,
    try_except, bind, interact. cbn [tick store].
  destruct (decide _).
  - destruct (PdfReader E (tick w) content) as [m|pages]; [discriminate|].
    destruct (pages_text pages [] _) as [[raw|e'] w2]; [|discriminate].
    unfold ret. intros [= <- _]. now exists raw.
  - destruct (image_to_string E (tick w) content) as [m|raw]; [discriminate|].
    unfold ret. intros [= <- _]. now exists raw.
Qed.

Lemma extract_text_Raise_detail file content w e w1 :
  extract_text E file content w = (Raise e, w1) ->
  e = HTTPException 400
        (if decide (UploadFile.content_type file = Some (lit "application/pdf"))
         then lit "Failed to extract text from PDF"
         else lit "Failed to extract text from image").
Proof.
  unfold extract_text, extract_text_from_pdf, extract_text_from_image,
    try_except, bind, interact. cbn [tick store].
  destruct (decide _).
  - destruct (PdfReader E (tick w) content) as [m|pages].
    + unfold raise. now intros [= <- _].
    + destruct (pages_text pages [] _) as [[raw|e'] w2]; [discriminate|].
      unfold raise. now intros [= <- _].
  - destruct (image_to_string E (tick w) content) as [m|raw].
    + unfold raise. now intros [= <- _].
    + discriminate.
Qed.

End Extraction.

Lemma extract_text_from_pdf_joins_pages_witness :
  extract_text_from_pdf
    (Faults.paged ["  Notice"; "of hearing"; "  "] Fake.up)
    (Fake.bytes_of "%PDF") Fake.w0
  = (Return (strip (str_join nl [lit "  Notice"; lit "of hearing"; lit "  "])),
     mkWorld (store Fake.w0) (S (tick Fake.w0))).
Proof.
  apply (extract_text_from_pdf_joins_pages
           (Faults.paged ["  Notice"; "of hearing"; "  "] Fake.up)
           (Fake.bytes_of "%PDF") Fake.w0
           [lit "  Notice"; lit "of hearing"; lit "  "]).
  reflexivity.
Defined.

Lemma extract_text_from_pdf_failure_witness :
  extract_text_from_pdf (Faults.broken_page Fake.up)
    (Fake.bytes_of "first page") Fake.w0
  = (Raise (HTTPException 400 (lit "Failed to extract text from PDF")),
     mkWorld (store Fake.w0) (S (tick Fake.w0))).
Proof.
  apply (extract_text_from_pdf_failure (Faults.broken_page Fake.up)).
  right. exists [inr (Fake.text_of_bytes (Fake.bytes_of "first page"));
                 inl (lit "bad stream")], (lit "bad stream").
  split; [reflexivity|]. apply list_elem_of_In. right. left. reflexivity.
Defined.

Example joined_pages_text :
  strip (str_join nl [lit "  Notice"; lit "of hearing"; lit "  "])
  = lit "Notice" ++ nl ++ lit "of hearing".
Proof. vm_compute. reflexivity. Qed.

(** ** [/upload-document]: the failure paths *)

Section UploadFailures.

Variable E : Env.

Lemma upload_document_rejected file sid lang w :
  py_in (UploadFile.content_type file) allowed_types = false ->
  upload_document E file sid lang w =
  (Raise (HTTPException 400 (lit "Only PDF and image files are supported")), w).
Proof.
  intros H. unfold upload_document, try_except, bind. now rewrite H.
Qed.

Lemma upload_document_read_fault file sid lang w m :
  py_in (UploadFile.content_type file) allowed_types = true ->
  read_fault E (tick w) = Some m ->
  upload_document E file sid lang w =
  (Raise (HTTPException 500 (lit "Failed to process document")),
   mkWorld (store w) (S (tick w))).
Proof.
  intros Hty Hrd. unfold upload_document, try_except.
  unfold bind at 1. rewrite Hty. unfold when at 1. cbn [negb]. unfold ret at 1.
  unfold bind at 1. unfold file_read, bind at 1, interact at 1.
  now rewrite Hrd.
Qed.

Lemma upload_document_extract_Raise file sid lang w e w1 :
  py_in (UploadFile.content_type file) allowed_types = true ->
  read_fault E (tick w) = None ->
  extract_text E file (UploadFile.content file)
               (mkWorld (store w) (S (tick w))) = (Raise e, w1) ->
  upload_document E file sid lang w = (Raise e, w1).
Proof.
  intros Hty Hrd Hex.
  destruct (extract_text_Raise E _ _ _ _ _ Hex) as [d ->].
  unfold upload_document, try_except.
  unfold bind at 1. rewrite Hty. unfold when at 1. cbn [negb]. unfold ret at 1.
  unfold bind at 1. unfold file_read, bind at 1, interact at 1.
  rewrite Hrd. unfold ret at 1. unfold bind at 1. now rewrite Hex.
Qed.

Lemma upload_document_extract_nil file sid lang w w1 :
  py_in (UploadFile.content_type file) allowed_types = true ->
  read_fault E (tick w) = None ->
  extract_text E file (UploadFile.content file)
               (mkWorld (store w) (S (tick w))) = (Return [], w1) ->
  upload_document E file sid lang w =
  (Raise (HTTPException 400
            (lit "No text could be extracted from the document")), w1).
Proof.
  intros Hty Hrd Hex. unfold upload_document, try_except.
  unfold bind at 1. rewrite Hty. unfold when at 1. cbn [negb]. unfold ret at 1.
  unfold bind at 1. unfold file_read, bind at 1, interact at 1.
  rewrite Hrd. unfold ret at 1. unfold bind at 1. rewrite Hex.
  unfold bind at 1. reflexivity.
Qed.

(** X3.  When reading the uploaded file raises, the request is answered
    with status 500 and the fixed detail "Failed to process document"; the
    text of the error is not passed on and nothing is stored. *)
Theorem upload_document_unreadable file sid lang w m :
  UploadFile.content_type file ∈ (Some <$> allowed_types) ->
  read_fault E (tick w) = Some m ->
  exists w',
    upload_document E file sid lang w =
      (Raise (HTTPException 500 (lit "Failed to process document")), w') /\
    store w' = store w.
Proof.
  intros Hty Hrd. apply py_in_true in Hty.
  rewrite (upload_document_read_fault file sid lang w m Hty Hrd).
  eexists. split; reflexivity.
Qed.

(** X4.  When the extraction raises, its status 400 reaches the client as
    it is, with the detail of the extractor that ran ("Failed to extract
    text from PDF" for [application/pdf], "Failed to extract text from
    image" for every other accepted type); it is not turned into a 500, and
    nothing is stored. *)
Theorem upload_document_extraction_fails file sid lang w e w1 :
  UploadFile.content_type file ∈ (Some <$> allowed_types) ->
  read_fault E (tick w) = None ->
  extract_text E file (UploadFile.content file)
               (mkWorld (store w) (S (tick w))) = (Raise e, w1) ->
  exists w',
    upload_document E file sid lang w =
      (Raise (HTTPException 400
         (if decide (UploadFile.content_type file
                     = Some (lit "application/pdf"))
          then lit "Failed to extract text from PDF"
          else lit "Failed to extract text from image")), w') /\
    store w' = store w.
Proof.
  intros Hty Hrd Hex. apply py_in_true in Hty.
  rewrite (upload_document_extract_Raise file sid lang w e w1 Hty Hrd Hex).
  pose proof (extract_text_world E file (UploadFile.content file)
                (mkWorld (store w) (S (tick w)))) as Hw.
  rewrite Hex in Hw. cbn [snd tick store] in Hw. subst w1.
  rewrite (extract_text_Raise_detail E _ _ _ _ _ Hex).
  eexists. split; reflexivity.
Qed.

(** X5.  When the insert into [documents] raises, the request is answered
    with status 500 and neither collection has changed: the ChatMessage is
    not written either, although the model had already answered. *)
Theorem upload_document_documents_insert_fails file sid lang w text m :
  UploadFile.content_type file ∈ (Some <$> allowed_types) ->
  read_fault E (tick w) = None ->
  extract_text E file (UploadFile.content file)
               (mkWorld (store w) (S (tick w)))
    = (Return text, mkWorld (store w) (S (S (tick w)))) ->
  text <> [] ->
  insert_fault E (5 + tick w) Coll_documents = Some m ->
  exists w',
    upload_document E file sid lang w =
      (Raise (HTTPException 500 (lit "Failed to process document")), w') /\
    store w' = store w.
Proof.
  intros Hty Hrd Hex Hne Hd. apply py_in_true in Hty.
  rewrite (upload_document_run E file sid lang w text Hty Hrd Hex Hne).
  cbv zeta. rewrite Hd. eexists. split; reflexivity.
Qed.

(** X6.  Whatever the collaborators do, an error answered by
    [upload_document] is one of five: status 400 with one of four fixed
    details, or status 500 with the detail "Failed to process document".
    No text of a library error ever reaches the client. *)
Theorem upload_document_Raise file sid lang w e w' :
  upload_document E file sid lang w = (Raise e, w') ->
  e ∈ [HTTPException 400 (lit "Only PDF and image files are supported");
       HTTPException 400 (lit "Failed to extract text from PDF");
       HTTPException 400 (lit "Failed to extract text from image");
       HTTPException 400 (lit "No text could be extracted from the document");
       HTTPException 500 (lit "Failed to process document")].
Proof.
  destruct (py_in (UploadFile.content_type file) allowed_types) eqn:Hty.
  2:{ rewrite upload_document_rejected by exact Hty. intros [= <- _].
      apply list_elem_of_In. simpl. tauto. }
  destruct (read_fault E (tick w)) as [m|] eqn:Hrd.
  { rewrite (upload_document_read_fault file sid lang w m Hty Hrd).
    intros [= <- _]. apply list_elem_of_In. simpl. tauto. }
  pose proof (extract_text_world E file (UploadFile.content file)
                (mkWorld (store w) (S (tick w)))) as Hw.
  destruct (extract_text E file _ _) as [[text|e0] w1] eqn:Hex;
    cbn [snd tick store] in Hw; subst w1.
  2:{ rewrite (upload_document_extract_Raise file sid lang w e0 _ Hty Hrd Hex).
      intros [= <- _]. rewrite (extract_text_Raise_detail E _ _ _ _ _ Hex).
      apply list_elem_of_In. simpl. destruct (decide _); tauto. }
  destruct text as [|c text].
  { rewrite (upload_document_extract_nil file sid lang w _ Hty Hrd Hex).
    intros [= <- _]. apply list_elem_of_In. simpl. tauto. }
  rewrite (upload_document_run E file sid lang w (c :: text) Hty Hrd Hex)
    by discriminate.
  cbv zeta.
  destruct (insert_fault E (5 + tick w) Coll_documents).
  { intros [= <- _]. apply list_elem_of_In. simpl. tauto. }
  destruct (insert_fault E (8 + tick w) Coll_chat_messages); [|discriminate].
  intros [= <- _]. apply list_elem_of_In. simpl. tauto.
Qed.

End UploadFailures.

(** ** [/upload-document]: what is stored and answered *)

Section UploadStore.

Variable E : Env.

(** X7.  Whatever the outcome, [upload_document] only appends: the records
    held before are kept in place, at most one DocumentUpload and at most
    one ChatMessage are added, a ChatMessage is never added without its
    DocumentUpload, and it is added exactly when the request returns. *)
Theorem upload_document_only_appends file sid lang w :
  exists ds cs,
    documents (store (snd (upload_document E file sid lang w)))
      = documents (store w) ++ ds /\
    chat_messages (store (snd (upload_document E file sid lang w)))
      = chat_messages (store w) ++ cs /\
    (length cs <= length ds <= 1)%nat /\
    (length cs = 1%nat <->
     exists r, fst (upload_document E file sid lang w) = Return r).
Proof.
  assert (Hnone : forall o w1,
             upload_document E file sid lang w = (Raise o, w1) ->
             store w1 = store w ->
             exists ds cs,
               documents (store (snd (upload_document E file sid lang w)))
                 = documents (store w) ++ ds /\
               chat_messages (store (snd (upload_document E file sid lang w)))
                 = chat_messages (store w) ++ cs /\
               (length cs <= length ds <= 1)%nat /\
               (length cs = 1%nat <->
                exists r, fst (upload_document E file sid lang w) = Return r)).
  { intros o w1 Hrun Hst. exists [], []. rewrite Hrun. cbn [fst snd].
    rewrite Hst, !app_nil_r. repeat split; simpl; try lia; try discriminate.
    intros [r Hr]. discriminate. }
  destruct (py_in (UploadFile.content_type file) allowed_types) eqn:Hty.
  2:{ eapply Hnone;
        [exact (upload_document_rejected E file sid lang w Hty)|reflexivity]. }
  destruct (read_fault E (tick w)) as [m|] eqn:Hrd.
  { eapply Hnone;
      [exact (upload_document_read_fault E file sid lang w m Hty Hrd)
      |reflexivity]. }
  pose proof (extract_text_world E file (UploadFile.content file)
                (mkWorld (store w) (S (tick w)))) as Hw.
  destruct (extract_text E file _ _) as [[text|e0] w1] eqn:Hex;
    cbn [snd tick store] in Hw; subst w1.
  2:{ eapply Hnone;
        [exact (upload_document_extract_Raise E file sid lang w e0 _ Hty Hrd Hex)
        |reflexivity]. }
  destruct text as [|c text].
  { eapply Hnone;
      [exact (upload_document_extract_nil E file sid lang w _ Hty Hrd Hex)
      |reflexivity]. }
  clear Hnone.
  rewrite (upload_document_run E file sid lang w (c :: text) Hty Hrd Hex)
    by discriminate.
  cbv zeta.
  destruct (insert_fault E (5 + tick w) Coll_documents).
  { exists [], []. cbn [fst snd store documents chat_messages].
    rewrite !app_nil_r. repeat split; simpl; try lia; try discriminate.
    intros [r Hr]. discriminate. }
  destruct (insert_fault E (8 + tick w) Coll_chat_messages).
  - eexists [_], []. cbn [fst snd store documents chat_messages].
    rewrite !app_nil_r. repeat split; simpl; try lia; try discriminate.
    intros [r Hr]. discriminate.
  - eexists [_], [_]. cbn [fst snd store documents chat_messages].
    repeat split; simpl; try lia. intros _. eauto.
Qed.

(** X8.  A failure of the model does not fail an upload: when the call
    raises and both inserts succeed, the request returns normally and the
    apology is what it answers as explanation, what the DocumentUpload
    stores as [simplified_explanation] and what the ChatMessage stores as
    response. *)
Theorem upload_document_ai_failure file sid lang w text err :
  UploadFile.content_type file ∈ (Some <$> allowed_types) ->
  read_fault E (tick w) = None ->
  extract_text E file (UploadFile.content file)
               (mkWorld (store w) (S (tick w)))
    = (Return text, mkWorld (store w) (S (S (tick w)))) ->
  text <> [] ->
  send_message E (2 + tick w) sid
    (with_language_prefix E lang (explanation_prompt lang text)) = inl err ->
  insert_fault E (5 + tick w) Coll_documents = None ->
  insert_fault E (8 + tick w) Coll_chat_messages = None ->
  exists r w' d c,
    upload_document E file sid lang w = (Return r, w') /\
    UploadResult.explanation r = APOLOGY /\
    documents (store w') = documents (store w) ++ [d] /\
    d !! "simplified_explanation" = Some (VStr APOLOGY) /\
    d !! "extracted_text" = Some (VStr text) /\
    chat_messages (store w') = chat_messages (store w) ++ [c] /\
    c !! "response" = Some (VStr APOLOGY).
Proof.
  intros Hty Hrd Hex Hne Hai Hd Hc. apply py_in_true in Hty.
  rewrite (upload_document_run E file sid lang w text Hty Hrd Hex Hne).
  cbv zeta. rewrite Hd, Hc. unfold ai_reply. rewrite Hai.
  eexists _, _, _, _. split; [reflexivity|]. split; [reflexivity|].
  split; [reflexivity|].
  split; [apply stored_DocumentUpload_fields|].
  split; [apply stored_DocumentUpload_fields|].
  split; [reflexivity|]. apply stored_ChatMessage_fields.
Qed.

(** X9.  The text stored by a request that returns is never empty and has
    no whitespace at either end: it is what [strip] left of the raw
    text. *)
Theorem upload_document_stored_text_trimmed file sid lang w r w' :
  upload_document E file sid lang w = (Return r, w') ->
  exists d text,
    documents (store w') = documents (store w) ++ [d] /\
    d !! "extracted_text" = Some (VStr text) /\
    text <> [] /\
    (forall c rest, text = c :: rest -> isspace c = false) /\
    (forall front c, text = front ++ [c] -> isspace c = false).
Proof.
  intros H.
  apply upload_document_Return in H
    as (text & _ & _ & Hex & Hne & _ & _ & _ & ->).
  apply extract_text_Return_strip in Hex as [raw ->].
  eexists _, (strip raw). split; [reflexivity|].
  split; [apply stored_DocumentUpload_fields|].
  split; [exact Hne|]. split.
  - intros c rest Heq. now apply (strip_first raw c rest).
  - intros front c Heq. now apply (strip_last raw front c).
Qed.

(** X10.  The [extracted_text] answered by a request that returns has at
    least one and at most 503 code points, and agrees with the stored text
    on its first 500. *)
Theorem upload_document_answer_bounded file sid lang w r w' :
  upload_document E file sid lang w = (Return r, w') ->
  exists d text,
    documents (store w') = documents (store w) ++ [d] /\
    d !! "extracted_text" = Some (VStr text) /\
    (1 <= length (UploadResult.extracted_text r) <= 503)%nat /\
    take 500 (UploadResult.extracted_text r) = take 500 text.
Proof.
  intros H.
  apply upload_document_Return in H
    as (text & _ & _ & _ & Hne & _ & _ & -> & ->).
  eexists _, text. split; [reflexivity|].
  split; [apply stored_DocumentUpload_fields|].
  cbn [UploadResult.extracted_text].
  destruct (500 <? length text)%nat eqn:Hlen.
  - apply Nat.ltb_lt in Hlen. split.
    + rewrite length_app, length_take, lit_length.
      change (String.length "...") with 3%nat. lia.
    + rewrite take_app_le by (rewrite length_take; lia).
      now rewrite take_take, Nat.min_id.
  - apply Nat.ltb_ge in Hlen. split; [|reflexivity].
    destruct text; [congruence|]. simpl in *. lia.
Qed.

(** X11.  The two tests of the language differ: the instruction to the
    model is chosen by [language.lower() == "hindi"], the wording of the
    analysis prompt by [language == 'hindi'].  For a language that only
    lower-cases to "hindi" the model is therefore told to respond in Hindi
    and asked for an explanation in English, in one and the same text. *)
Theorem upload_document_language_mismatch file sid lang w r w' :
  upload_document E file sid lang w = (Return r, w') ->
  lower E lang = lit "hindi" ->
  lang <> lit "hindi" ->
  exists d text,
    documents (store w') = documents (store w) ++ [d] /\
    d !! "extracted_text" = Some (VStr text) /\
    UploadResult.explanation r =
      match send_message E (2 + tick w) sid
              (lit "Please respond in simple Hindi (Devanagari script): "
               ++ lit "Analyze this legal document and provide a simplified explanation in "
               ++ lit "English"
               ++ lit ":" ++ nl ++ nl ++ lit "Document Text:" ++ nl
               ++ text ++ nl ++ nl
               ++ lit "Please provide:" ++ nl
               ++ lit "1. What type of legal document this is" ++ nl
               ++ lit "2. Key points and important information" ++ nl
               ++ lit "3. What actions the person should take (if any)" ++ nl
               ++ lit "4. Any deadlines or important dates" ++ nl
               ++ lit "5. Rights and obligations mentioned" ++ nl
               ++ lit "6. Whether legal consultation is recommended"
               ++ nl ++ nl
               ++ lit "Make the explanation simple and easy to understand for someone with limited legal knowledge.")
      with
      | inl _ => APOLOGY
      | inr answer => answer
      end.
Proof.
  intros H Hlow Hne.
  apply upload_document_Return in H
    as (text & _ & _ & _ & _ & _ & _ & -> & ->).
  eexists _, text. split; [reflexivity|].
  split; [apply stored_DocumentUpload_fields|].
  cbn [UploadResult.explanation]. unfold ai_reply, with_language_prefix.
  rewrite decide_True by exact Hlow.
  unfold explanation_prompt. rewrite decide_False by exact Hne.
  reflexivity.
Qed.

End UploadStore.

Lemma upload_document_unreadable_witness :
  exists w',
    upload_document (Faults.unreadable Fake.up) Faults.notice
      (lit "s1") (lit "english") Fake.w0 =
      (Raise (HTTPException 500 (lit "Failed to process document")), w') /\
    store w' = store Fake.w0.
Proof.
  apply (upload_document_unreadable (Faults.unreadable Fake.up) Faults.notice
           (lit "s1") (lit "english") Fake.w0 (lit "stream closed")).
  - apply (bool_decide_eq_true_1 _). vm_compute. reflexivity.
  - reflexivity.
Defined.

Lemma upload_document_extraction_fails_witness :
  exists w',
    upload_document (Faults.no_ocr Fake.up) (Faults.png "scan.png" "pixels")
      (lit "s1") (lit "english") Fake.w0 =
      (Raise (HTTPException 400
         (if decide (UploadFile.content_type (Faults.png "scan.png" "pixels")
                     = Some (lit "application/pdf"))
          then lit "Failed to extract text from PDF"
          else lit "Failed to extract text from image")), w') /\
    store w' = store Fake.w0.
Proof.
  apply (upload_document_extraction_fails (Faults.no_ocr Fake.up)
           (Faults.png "scan.png" "pixels") (lit "s1") (lit "english") Fake.w0
           (HTTPException 400 (lit "Failed to extract text from image"))
           (mkWorld (store Fake.w0) 2)).
  - apply (bool_decide_eq_true_1 _). vm_compute. reflexivity.
  - reflexivity.
  - vm_compute. reflexivity.
Defined.

Lemma upload_document_documents_insert_fails_witness :
  exists w',
    upload_document (Faults.documents_down Fake.up) Faults.notice
      (lit "s1") (lit "english") Fake.w0 =
      (Raise (HTTPException 500 (lit "Failed to process document")), w') /\
    store w' = store Fake.w0.
Proof.
  apply (upload_document_documents_insert_fails
           (Faults.documents_down Fake.up) Faults.notice (lit "s1")
           (lit "english") Fake.w0 (lit "Pay by Friday") (lit "not primary")).
  - apply (bool_decide_eq_true_1 _). vm_compute. reflexivity.
  - reflexivity.
  - vm_compute. reflexivity.
  - discriminate.
  - reflexivity.
Defined.

Lemma upload_document_Raise_witness :
  HTTPException 400 (lit "Failed to extract text from PDF")
  ∈ [HTTPException 400 (lit "Only PDF and image files are supported");
     HTTPException 400 (lit "Failed to extract text from PDF");
     HTTPException 400 (lit "Failed to extract text from image");
     HTTPException 400 (lit "No text could be extracted from the document");
     HTTPException 500 (lit "Failed to process document")].
Proof.
  apply (upload_document_Raise (Faults.broken_pdf Fake.up) Faults.notice
           (lit "s1") (lit "english") Fake.w0 _ (mkWorld (store Fake.w0) 2)).
  vm_compute. reflexivity.
Defined.

Lemma upload_document_ai_failure_witness :
  exists r w' d c,
    upload_document (Fake.env false true true) Faults.notice
      (lit "s1") (lit "english") Fake.w0 = (Return r, w') /\
    UploadResult.explanation r = APOLOGY /\
    documents (store w') = documents (store Fake.w0) ++ [d] /\
    d !! "simplified_explanation" = Some (VStr APOLOGY) /\
    d !! "extracted_text" = Some (VStr (lit "Pay by Friday")) /\
    chat_messages (store w') = chat_messages (store Fake.w0) ++ [c] /\
    c !! "response" = Some (VStr APOLOGY).
Proof.
  apply (upload_document_ai_failure (Fake.env false true true) Faults.notice
           (lit "s1") (lit "english") Fake.w0 (lit "Pay by Friday")
           (lit "connection refused")).
  - apply (bool_decide_eq_true_1 _). vm_compute. reflexivity.
  - reflexivity.
  - vm_compute. reflexivity.
  - discriminate.
  - reflexivity.
  - reflexivity.
  - reflexivity.
Defined.

Lemma upload_document_stored_text_trimmed_witness :
  exists d text,
    documents (store (snd (upload_document Fake.up
                             (Fake.pdf "notice.pdf" "  Pay by Friday  ")
                             (lit "s1") (lit "english") Fake.w0)))
      = documents (store Fake.w0) ++ [d] /\
    d !! "extracted_text" = Some (VStr text) /\
    text <> [] /\
    (forall c rest, text = c :: rest -> isspace c = false) /\
    (forall front c, text = front ++ [c] -> isspace c = false).
Proof.
  apply (upload_document_stored_text_trimmed Fake.up
           (Fake.pdf "notice.pdf" "  Pay by Friday  ")
           (lit "s1") (lit "english") Fake.w0
           (Fake.returned Fake.no_upload
              (upload_document Fake.up
                 (Fake.pdf "notice.pdf" "  Pay by Friday  ")
                 (lit "s1") (lit "english") Fake.w0))).
  vm_compute. reflexivity.
Defined.

Lemma upload_document_answer_bounded_witness :
  exists d text,
    documents (store (snd Fake.long_upload))
      = documents (store Fake.w0) ++ [d] /\
    d !! "extracted_text" = Some (VStr text) /\
    (1 <= length (UploadResult.extracted_text
                    (Fake.returned Fake.no_upload Fake.long_upload))
       <= 503)%nat /\
    take 500 (UploadResult.extracted_text
                (Fake.returned Fake.no_upload Fake.long_upload))
      = take 500 text.
Proof.
  apply (upload_document_answer_bounded Fake.up Fake.long_pdf (lit "s1")
           (lit "english") Fake.w0).
  vm_compute. reflexivity.
Defined.

Example trimmed_text_is_stored :
  exists d,
    documents (store (snd (upload_document Fake.up
                             (Fake.pdf "notice.pdf" "  Pay by Friday  ")
                             (lit "s1") (lit "english") Fake.w0))) = [d] /\
    d !! "extracted_text" = Some (VStr (lit "Pay by Friday")).
Proof. eexists. split; vm_compute; reflexivity. Qed.

Lemma upload_document_language_mismatch_witness :
  exists d text,
    documents (store (snd Faults.capital_upload))
      = documents (store Fake.w0) ++ [d] /\
    d !! "extracted_text" = Some (VStr text) /\
    UploadResult.explanation
      (Fake.returned Fake.no_upload Faults.capital_upload) =
      match send_message Fake.up (2 + tick Fake.w0) (lit "s1")
              (lit "Please respond in simple Hindi (Devanagari script): "
               ++ lit "Analyze this legal document and provide a simplified explanation in "
               ++ lit "English"
               ++ lit ":" ++ nl ++ nl ++ lit "Document Text:" ++ nl
               ++ text ++ nl ++ nl
               ++ lit "Please provide:" ++ nl
               ++ lit "1. What type of legal document this is" ++ nl
               ++ lit "2. Key points and important information" ++ nl
               ++ lit "3. What actions the person should take (if any)" ++ nl
               ++ lit "4. Any deadlines or important dates" ++ nl
               ++ lit "5. Rights and obligations mentioned" ++ nl
               ++ lit "6. Whether legal consultation is recommended"
               ++ nl ++ nl
               ++ lit "Make the explanation simple and easy to understand for someone with limited legal knowledge.")
      with
      | inl _ => APOLOGY
      | inr answer => answer
      end.
Proof.
  apply (upload_document_language_mismatch Fake.up Faults.notice (lit "s1")
           (lit "Hindi") Fake.w0).
  - vm_compute. reflexivity.
  - vm_compute. reflexivity.
  - discriminate.
Defined.

(** ** [/chat]: session, store and history *)

Section ChatStore.

Variable E : Env.

Lemma clean_msg_stored oid (r : ChatMessage.t) :
  clean_msg E (<["_id" := oid]> (ChatMessage.dict r)) = ChatMessage.dict r.
Proof.
  unfold clean_msg, get.
  destruct (stored_ChatMessage_fields oid r)
    as (-> & -> & -> & -> & -> & ->).
  reflexivity.
Qed.



Lemma sort_asc_length k l : length (sort_asc k l) = length l.
Proof. apply Permutation_length, sort_asc_perm. Qed.

Lemma filter_session_snoc sid (l : list document) d :
  filter (fun x => matches_session sid x = true) (l ++ [d])
  = filter (fun x => matches_session sid x = true) l
    ++ (if matches_session sid d then [d] else []).
Proof.
  rewrite filter_app. f_equal.
  destruct (matches_session sid d) eqn:Hd.
  - now rewrite filter_cons_True.
  - rewrite filter_cons_False; [reflexivity|]. now rewrite Hd.
Qed.

(** X12.  A request that returns answers with the session it ran in, and
    the stored ChatMessage carries that same session and the same
    response.  A session given by the client is kept as it is, unless it is
    the empty string, which is replaced by a fresh identifier exactly like
    a missing one. *)
Theorem chat_endpoint_session request w r w' :
  chat_endpoint E request w = (Return r, w') ->
  (forall c s, ChatRequest.session_id request = Some (c :: s) ->
               ChatResponse.session_id r = c :: s) /\
  (ChatRequest.session_id request = None \/
   ChatRequest.session_id request = Some [] ->
   ChatResponse.session_id r = uuid4 E (tick w)) /\
  ChatResponse.sources r
    = [lit "Indian Legal Database"; lit "Government Schemes Portal"] /\
  exists d,
    chat_messages (store w') = chat_messages (store w) ++ [d] /\
    d !! "session_id" = Some (VStr (ChatResponse.session_id r)) /\
    d !! "response" = Some (VStr (ChatResponse.response r)).
Proof.
  intros H. rewrite chat_endpoint_run in H. cbv zeta in H.
  destruct (insert_fault E _ Coll_chat_messages); [discriminate|].
  injection H as <- <-. cbn [ChatResponse.session_id ChatResponse.sources
                             ChatResponse.response store chat_messages].
  unfold session_of. split; [|split; [|split]].
  - intros c s Hs. now rewrite Hs.
  - intros [Hs|Hs]; now rewrite Hs.
  - reflexivity.
  - eexists. split; [reflexivity|].
    split; apply stored_ChatMessage_fields.
Qed.

(** X13.  Whatever the outcome, [chat_endpoint] leaves [documents] alone
    and keeps the ChatMessages held before in place.  It either appends one
    ChatMessage and returns, or appends nothing and answers status 500 with
    the fixed detail "Failed to process chat request". *)
Theorem chat_endpoint_only_appends request w :
  documents (store (snd (chat_endpoint E request w))) = documents (store w) /\
  ((exists r c,
      fst (chat_endpoint E request w) = Return r /\
      chat_messages (store (snd (chat_endpoint E request w)))
        = chat_messages (store w) ++ [c]) \/
   (fst (chat_endpoint E request w)
      = Raise (HTTPException 500 (lit "Failed to process chat request")) /\
    chat_messages (store (snd (chat_endpoint E request w)))
      = chat_messages (store w))).
Proof.
  rewrite chat_endpoint_run. cbv zeta.
  destruct (insert_fault E _ Coll_chat_messages); cbn [fst snd store documents
                                                       chat_messages].
  - split; [reflexivity|]. right. split; reflexivity.
  - split; [reflexivity|]. left. eexists _, _. split; reflexivity.
Qed.

(** X14.  A turn that was stored is shown: when [chat_endpoint] returns
    and the session held fewer than 100 ChatMessages before, the history of
    that session asked for next (and answered by the store) contains an
    entry with the message of the request, the response that was answered,
    the type "text" and the session. *)
Theorem chat_then_history request w r w' :
  chat_endpoint E request w = (Return r, w') ->
  find_fault E (tick w') = None ->
  (length (filter (fun d => matches_session (ChatResponse.session_id r) d = true)
                  (chat_messages (store w))) < 100)%nat ->
  exists h w'' c,
    get_chat_history E (ChatResponse.session_id r) w' = (Return h, w'') /\
    c ∈ HistoryResult.messages h /\
    c !! "message" = Some (VStr (ChatRequest.message request)) /\
    c !! "response" = Some (VStr (ChatResponse.response r)) /\
    c !! "message_type" = Some (VStr (lit "text")) /\
    c !! "session_id" = Some (VStr (ChatResponse.session_id r)).
Proof.
  intros H Hf Hlen. rewrite chat_endpoint_run in H. cbv zeta in H.
  destruct (insert_fault E _ Coll_chat_messages); [discriminate|].
  injection H as <- <-.
  cbn [ChatResponse.session_id ChatResponse.response] in *.
  rewrite get_chat_history_run. cbn [tick store chat_messages] in *.
  rewrite Hf.
  set (sid := fst (session_of E request (tick w))) in *.
  set (rec := ChatMessage.mk _ sid _ _ _ _).
  set (d := <["_id" := _]> (ChatMessage.dict rec)).
  assert (Hd : matches_session sid d = true).
  { apply matches_session_spec. subst d. apply stored_ChatMessage_fields. }
  rewrite filter_session_snoc, Hd.
  eexists _, _, (clean_msg E d). split; [reflexivity|].
  cbn [HistoryResult.messages]. split.
  - apply list_elem_of_fmap_2.
    rewrite take_ge.
    + rewrite sort_asc_perm. apply elem_of_app. right. apply list_elem_of_singleton.
      reflexivity.
    + rewrite sort_asc_length, length_app. simpl. lia.
  - subst d. rewrite clean_msg_stored. unfold ChatMessage.dict. subst rec.
    cbn [ChatMessage.id ChatMessage.session_id ChatMessage.message
         ChatMessage.response ChatMessage.timestamp ChatMessage.message_type].
    repeat split; by simplify_map_eq.
Qed.


(** X16.  Sessions do not mix: a turn stored for one session leaves the
    history of every other session as it was. *)
Theorem chat_other_session_unseen request w r w' sid :
  chat_endpoint E request w = (Return r, w') ->
  ChatResponse.session_id r <> sid ->
  find_fault E (tick w) = None ->
  find_fault E (tick w') = None ->
  fst (get_chat_history E sid w') = fst (get_chat_history E sid w).
Proof.
  intros H Hne Hf Hf'. rewrite chat_endpoint_run in H. cbv zeta in H.
  destruct (insert_fault E _ Coll_chat_messages); [discriminate|].
  injection H as <- <-. cbn [ChatResponse.session_id] in Hne.
  rewrite !get_chat_history_run. cbn [tick store chat_messages] in *.
  rewrite Hf, Hf'. cbn [fst]. do 4 f_equal.
  rewrite filter_session_snoc.
  set (d := <["_id" := _]> (ChatMessage.dict _)).
  assert (Hsid : d !! "session_id"
                 = Some (VStr (fst (session_of E request (tick w))))).
  { subst d. apply stored_ChatMessage_fields. }
  assert (Hd : matches_session sid d = false).
  { apply bool_decide_eq_false. rewrite Hsid. congruence. }
  rewrite Hd. now rewrite app_nil_r.
Qed.

End ChatStore.

Lemma chat_endpoint_session_witness :
  (forall c s, ChatRequest.session_id Faults.ask_anonymous = Some (c :: s) ->
               ChatResponse.session_id
                 (Fake.returned Fake.no_answer Faults.anonymous_run) = c :: s) /\
  (ChatRequest.session_id Faults.ask_anonymous = None \/
   ChatRequest.session_id Faults.ask_anonymous = Some [] ->
   ChatResponse.session_id
     (Fake.returned Fake.no_answer Faults.anonymous_run)
   = uuid4 Fake.up (tick Fake.w0)) /\
  ChatResponse.sources (Fake.returned Fake.no_answer Faults.anonymous_run)
    = [lit "Indian Legal Database"; lit "Government Schemes Portal"] /\
  exists d,
    chat_messages (store (snd Faults.anonymous_run))
      = chat_messages (store Fake.w0) ++ [d] /\
    d !! "session_id"
      = Some (VStr (ChatResponse.session_id
                      (Fake.returned Fake.no_answer Faults.anonymous_run))) /\
    d !! "response"
      = Some (VStr (ChatResponse.response
                      (Fake.returned Fake.no_answer Faults.anonymous_run))).
Proof.
  apply (chat_endpoint_session Fake.up Faults.ask_anonymous Fake.w0).
  vm_compute. reflexivity.
Defined.

Lemma chat_then_history_witness :
  exists h w'' c,
    get_chat_history Fake.up
      (ChatResponse.session_id (Fake.returned Fake.no_answer Faults.hist_run))
      (snd Faults.hist_run) = (Return h, w'') /\
    c ∈ HistoryResult.messages h /\
    c !! "message" = Some (VStr (ChatRequest.message Fake.ask)) /\
    c !! "response"
      = Some (VStr (ChatResponse.response
                      (Fake.returned Fake.no_answer Faults.hist_run))) /\
    c !! "message_type" = Some (VStr (lit "text")) /\
    c !! "session_id"
      = Some (VStr (ChatResponse.session_id
                      (Fake.returned Fake.no_answer Faults.hist_run))).
Proof.
  apply (chat_then_history Fake.up Fake.ask Fake.w_hist).
  - vm_compute. reflexivity.
  - reflexivity.
  - vm_compute. lia.
Defined.


Lemma chat_other_session_unseen_witness :
  fst (get_chat_history Fake.up (lit "s2") (snd Faults.hist_run))
    = fst (get_chat_history Fake.up (lit "s2") Fake.w_hist).
Proof.
  apply (chat_other_session_unseen Fake.up Fake.ask Fake.w_hist
           (Fake.returned Fake.no_answer Faults.hist_run)).
  - vm_compute. reflexivity.
  - discriminate.
  - reflexivity.
  - reflexivity.
Defined.

Example hundred_and_first_turn :
  length (chat_messages (store (snd Faults.busy_run))) = 101%nat /\
  match fst (get_chat_history Fake.up (lit "s1") (snd Faults.busy_run)) with
  | Return h => length (HistoryResult.messages h)
  | Raise _ => 0%nat
  end = 100%nat.
Proof. vm_compute. split; reflexivity. Qed.

(** ** [/upload-document] and [/chat-history] together *)

Section UploadHistory.

Variable E : Env.

(** X17.  An upload that returns is shown in the history of its session
    asked for next, when the session held fewer than 100 ChatMessages
    before: as an entry of type "document" whose message names the file and
    whose response is the explanation that was answered. *)
Theorem upload_then_history file sid lang w r w' :
  upload_document E file sid lang w = (Return r, w') ->
  find_fault E (tick w') = None ->
  (length (filter (fun d => matches_session sid d = true)
                  (chat_messages (store w))) < 100)%nat ->
  exists h w'' c,
    get_chat_history E sid w' = (Return h, w'') /\
    c ∈ HistoryResult.messages h /\
    c !! "message"
      = Some (VStr (lit "Uploaded document: " ++ UploadFile.filename file)) /\
    c !! "response" = Some (VStr (UploadResult.explanation r)) /\
    c !! "message_type" = Some (VStr (lit "document")) /\
    c !! "session_id" = Some (VStr sid).
Proof.
  intros H Hf Hlen.
  apply upload_document_Return in H
    as (text & _ & _ & _ & _ & _ & _ & -> & ->).
  cbn [UploadResult.explanation].
  rewrite get_chat_history_run. cbn [tick store chat_messages] in *.
  rewrite Hf.
  set (rec := ChatMessage.mk _ sid _ _ _ _).
  set (d := <["_id" := _]> (ChatMessage.dict rec)).
  assert (Hd : matches_session sid d = true).
  { apply matches_session_spec. subst d. apply stored_ChatMessage_fields. }
  rewrite filter_session_snoc, Hd.
  eexists _, _, (clean_msg E d). split; [reflexivity|].
  cbn [HistoryResult.messages]. split.
  - apply list_elem_of_fmap_2.
    rewrite take_ge.
    + rewrite sort_asc_perm. apply elem_of_app. right.
      apply list_elem_of_singleton. reflexivity.
    + rewrite sort_asc_length, length_app. simpl. lia.
  - subst d. rewrite clean_msg_stored. unfold ChatMessage.dict. subst rec.
    cbn [ChatMessage.id ChatMessage.session_id ChatMessage.message
         ChatMessage.response ChatMessage.timestamp ChatMessage.message_type].
    repeat split; by simplify_map_eq.
Qed.

(** X18.  When the query of the store raises, [get_chat_history] answers
    status 500 and, unlike the other routes, passes the text of the error
    on in the detail; the store is as it was. *)
Theorem get_chat_history_store_failure sid w m :
  find_fault E (tick w) = Some m ->
  exists w',
    get_chat_history E sid w =
      (Raise (HTTPException 500
                (lit "Failed to retrieve chat history: " ++ m)), w') /\
    store w' = store w.
Proof.
  intros Hf. rewrite get_chat_history_run, Hf.
  eexists. split; reflexivity.
Qed.

(** X19.  When the store answers, the history of a session has as many
    entries as the session has stored ChatMessages, up to 100; and while
    the session has at most 100, every stored ChatMessage of the session is
    shown exactly once. *)
Theorem get_chat_history_complete sid w :
  find_fault E (tick w) = None ->
  exists h w',
    get_chat_history E sid w = (Return h, w') /\
    length (HistoryResult.messages h)
      = Nat.min 100 (length (filter (fun d => matches_session sid d = true)
                                    (chat_messages (store w)))) /\
    ((length (filter (fun d => matches_session sid d = true)
                     (chat_messages (store w))) <= 100)%nat ->
     HistoryResult.messages h
       ≡ₚ map (clean_msg E)
              (filter (fun d => matches_session sid d = true)
                      (chat_messages (store w)))).
Proof.
  intros Hf. rewrite get_chat_history_run, Hf.
  eexists _, _. split; [reflexivity|]. cbn [HistoryResult.messages].
  split.
  - now rewrite length_map, length_take, sort_asc_length.
  - intros Hlen. rewrite take_ge by (rewrite sort_asc_length; exact Hlen).
    apply fmap_Permutation, sort_asc_perm.
Qed.

End UploadHistory.

Lemma upload_then_history_witness :
  exists h w'' c,
    get_chat_history Fake.up (lit "s1") (snd Faults.hist_upload)
      = (Return h, w'') /\
    c ∈ HistoryResult.messages h /\
    c !! "message"
      = Some (VStr (lit "Uploaded document: "
                    ++ UploadFile.filename Faults.notice)) /\
    c !! "response"
      = Some (VStr (UploadResult.explanation
                      (Fake.returned Fake.no_upload Faults.hist_upload))) /\
    c !! "message_type" = Some (VStr (lit "document")) /\
    c !! "session_id" = Some (VStr (lit "s1")).
Proof.
  apply (upload_then_history Fake.up Faults.notice (lit "s1") (lit "english")
           Fake.w_hist).
  - vm_compute. reflexivity.
  - reflexivity.
  - vm_compute. lia.
Defined.

Lemma get_chat_history_store_failure_witness :
  exists w',
    get_chat_history (Fake.env true true false) (lit "s1") Fake.w_hist =
      (Raise (HTTPException 500
                (lit "Failed to retrieve chat history: "
                 ++ lit "server selection timeout")), w') /\
    store w' = store Fake.w_hist.
Proof.
  apply (get_chat_history_store_failure (Fake.env true true false)
           (lit "s1") Fake.w_hist (lit "server selection timeout")).
  reflexivity.
Defined.

Lemma get_chat_history_complete_witness :
  exists h w',
    get_chat_history Fake.up (lit "s1") Fake.w_hist = (Return h, w') /\
    length (HistoryResult.messages h)
      = Nat.min 100
          (length (filter (fun d => matches_session (lit "s1") d = true)
                          (chat_messages (store Fake.w_hist)))) /\
    ((length (filter (fun d => matches_session (lit "s1") d = true)
                     (chat_messages (store Fake.w_hist))) <= 100)%nat ->
     HistoryResult.messages h
       ≡ₚ map (clean_msg Fake.up)
              (filter (fun d => matches_session (lit "s1") d = true)
                      (chat_messages (store Fake.w_hist)))).
Proof.
  apply (get_chat_history_complete Fake.up (lit "s1") Fake.w_hist).
  reflexivity.
Defined.

(** ** Fresh identifiers *)

Section Fresh.

Variable E : Env.

Lemma NoDup_seq_neq {A} (f : nat -> A) a n i j :
  NoDup (map f (seq a n)) ->
  (i < n)%nat -> (j < n)%nat -> i <> j -> f (a + i)%nat <> f (a + j)%nat.
Proof.
  intros Hnd Hi Hj Hne Heq. apply Hne.
  apply (proj1 (NoDup_alt (map f (seq a n))) Hnd i j (f (a + i)%nat)).
  - change (map f (seq a n)) with (f <$> seq a n).
    rewrite list_lookup_fmap, lookup_seq_lt by exact Hi. reflexivity.
  - change (map f (seq a n)) with (f <$> seq a n).
    rewrite list_lookup_fmap, lookup_seq_lt by exact Hj. simpl.
    now rewrite Heq.
Qed.

(** X20.  Two requests without a session (missing or empty), served one
    after the other, run in different sessions and store records with
    different [id]s, provided the identifiers drawn while they are served
    are pairwise different. *)
Theorem chat_endpoint_fresh_sessions req1 req2 w r1 w1 r2 w2 :
  chat_endpoint E req1 w = (Return r1, w1) ->
  chat_endpoint E req2 w1 = (Return r2, w2) ->
  (ChatRequest.session_id req1 = None \/
   ChatRequest.session_id req1 = Some []) ->
  (ChatRequest.session_id req2 = None \/
   ChatRequest.session_id req2 = Some []) ->
  NoDup (map (uuid4 E) (seq (tick w) 12)) ->
  ChatResponse.session_id r1 <> ChatResponse.session_id r2 /\
  exists d1 d2 i1 i2,
    chat_messages (store w2) = chat_messages (store w) ++ [d1; d2] /\
    d1 !! "id" = Some (VStr i1) /\
    d2 !! "id" = Some (VStr i2) /\
    i1 <> i2 /\
    d1 !! "session_id" = Some (VStr (ChatResponse.session_id r1)) /\
    d2 !! "session_id" = Some (VStr (ChatResponse.session_id r2)).
Proof.
  intros H1 H2 Hs1 Hs2 Hnd.
  rewrite chat_endpoint_run in H1. cbv zeta in H1.
  assert (Hso1 : session_of E req1 (tick w) = (uuid4 E (tick w), S (tick w))).
  { unfold session_of. now destruct Hs1 as [-> | ->]. }
  rewrite Hso1 in H1. cbn [fst snd] in H1.
  destruct (insert_fault E _ Coll_chat_messages); [discriminate|].
  injection H1 as <- <-.
  rewrite chat_endpoint_run in H2. cbv zeta in H2. cbn [tick store] in H2.
  assert (Hso2 : forall n, session_of E req2 n = (uuid4 E n, S n)).
  { intros n. unfold session_of. now destruct Hs2 as [-> | ->]. }
  rewrite Hso2 in H2. cbn [fst snd] in H2.
  destruct (insert_fault E _ Coll_chat_messages); [discriminate|].
  injection H2 as <- <-.
  cbn [ChatResponse.session_id store chat_messages].
  split.
  - intros Heq.
    apply (NoDup_seq_neq (uuid4 E) (tick w) 12 0 6 Hnd); try lia.
    rewrite Nat.add_0_r. etransitivity; [exact Heq|]. f_equal. lia.
  - eexists _, _, _, _. rewrite <- app_assoc. split; [reflexivity|].
    split; [apply stored_ChatMessage_fields|].
    split; [apply stored_ChatMessage_fields|].
    split; [|split; apply stored_ChatMessage_fields].
    cbn [ChatMessage.id]. intros Heq.
    apply (NoDup_seq_neq (uuid4 E) (tick w) 12 2 8 Hnd); try lia.
    etransitivity; [|etransitivity; [exact Heq|]]; f_equal; lia.
Qed.


End Fresh.

Lemma chat_endpoint_fresh_sessions_witness :
  ChatResponse.session_id (Fake.returned Fake.no_answer Faults.anonymous_run)
    <> ChatResponse.session_id
         (Fake.returned Fake.no_answer Faults.second_run) /\
  exists d1 d2 i1 i2,
    chat_messages (store (snd Faults.second_run))
      = chat_messages (store Fake.w0) ++ [d1; d2] /\
    d1 !! "id" = Some (VStr i1) /\
    d2 !! "id" = Some (VStr i2) /\
    i1 <> i2 /\
    d1 !! "session_id"
      = Some (VStr (ChatResponse.session_id
                      (Fake.returned Fake.no_answer Faults.anonymous_run))) /\
    d2 !! "session_id"
      = Some (VStr (ChatResponse.session_id
                      (Fake.returned Fake.no_answer Faults.second_run))).
Proof.
  apply (chat_endpoint_fresh_sessions Fake.up Faults.ask_anonymous
           Faults.ask_anonymous Fake.w0
           (Fake.returned Fake.no_answer Faults.anonymous_run)
           (snd Faults.anonymous_run)
           (Fake.returned Fake.no_answer Faults.second_run)
           (snd Faults.second_run)).
  - vm_compute. reflexivity.
  - vm_compute. reflexivity.
  - left. reflexivity.
  - left. reflexivity.
  - apply (bool_decide_eq_true_1 _). vm_compute. reflexivity.
Defined.

(** ** The allow-list of origins *)

Section Origins.

Lemma str_split_nonempty sep s : str_split sep s <> [].
Proof.
  destruct s as [|c s]; simpl; [discriminate|].
  destruct (c =? sep)%N; [discriminate|].
  destruct (str_split sep s); discriminate.
Qed.

Lemma str_join_split sep s : str_join [sep] (str_split sep s) = s.
Proof.
  induction s as [|c s IH]; simpl; [reflexivity|].
  pose proof (str_split_nonempty sep s) as Hne.
  destruct (c =? sep)%N eqn:Hc.
  - apply N.eqb_eq in Hc. subst c.
    destruct (str_split sep s) as [|p ps]; [congruence|].
    change (str_join [sep] ([] :: p :: ps))
      with ([] ++ [sep] ++ str_join [sep] (p :: ps)).
    now rewrite IH.
  - destruct (str_split sep s) as [|p ps]; [congruence|].
    destruct ps as [|q ps].
    + simpl in *. now rewrite IH.
    + change (str_join [sep] ((c :: p) :: q :: ps))
        with (c :: (p ++ [sep] ++ str_join [sep] (q :: ps))).
      change (str_join [sep] (p :: q :: ps))
        with (p ++ [sep] ++ str_join [sep] (q :: ps)) in IH.
      now rewrite IH.
Qed.

Lemma str_split_pieces sep s :
  Forall (fun piece => sep ∉ piece) (str_split sep s).
Proof.
  induction s as [|c s IH]; simpl.
  - repeat constructor. apply not_elem_of_nil.
  - destruct (c =? sep)%N eqn:Hc.
    + constructor; [apply not_elem_of_nil|exact IH].
    + apply N.eqb_neq in Hc.
      destruct (str_split sep s) as [|p ps].
      * repeat constructor. intros Hin.
        apply list_elem_of_singleton in Hin. congruence.
      * inversion IH as [|? ? Hp Hps]; subst. constructor; [|exact Hps].
        intros Hin. apply elem_of_cons in Hin as [Heq|Hin]; [congruence|].
        now apply Hp.
Qed.

Lemma str_split_length sep s :
  length (str_split sep s)
  = S (length (filter (fun c => c = sep) s)).
Proof.
  induction s as [|c s IH]; simpl; [reflexivity|].
  destruct (c =? sep)%N eqn:Hc.
  - apply N.eqb_eq in Hc. rewrite filter_cons_True by exact Hc.
    simpl. now rewrite IH.
  - apply N.eqb_neq in Hc. rewrite filter_cons_False by exact Hc.
    pose proof (str_split_nonempty sep s) as Hne.
    destruct (str_split sep s) as [|p ps]; [congruence|].
    simpl in *. exact IH.
Qed.

(** X22.  The allow-list of origins is the variable [CORS_ORIGINS] cut at
    its commas, "*" when the variable is not set: it is never empty, it has
    one entry more than the variable has commas, no entry contains a comma,
    and joining the entries with commas gives the variable back, so that
    nothing is trimmed or dropped (an empty variable gives the single empty
    origin). *)
Theorem allow_origins_split (CORS_ORIGINS : option str) :
  allow_origins CORS_ORIGINS <> [] /\
  length (allow_origins CORS_ORIGINS)
    = S (length (filter (fun c => c = comma)
                        (default (lit "*") CORS_ORIGINS))) /\
  Forall (fun origin => comma ∉ origin) (allow_origins CORS_ORIGINS) /\
  str_join [comma] (allow_origins CORS_ORIGINS)
    = default (lit "*") CORS_ORIGINS /\
  allow_origins None = [lit "*"] /\
  allow_origins (Some []) = [[]].
Proof.
  unfold allow_origins. split; [apply str_split_nonempty|].
  split; [apply str_split_length|].
  split; [apply str_split_pieces|].
  split; [apply str_join_split|].
  split; reflexivity.
Qed.

End Origins.

Example origins_keep_their_spaces :
  allow_origins (Some (lit "https://a.example, https://b.example"))
  = [lit "https://a.example"; lit " https://b.example"].
Proof. vm_compute. reflexivity. Qed.
